(** * telegram_client.py: search orchestrator, date-window scraper and
      command surface

    A shallow embedding of [src/telegram_client.py].  The external
    Telethon client is a scripted double ([TelegramClient] below): every
    call into it is recorded as an [event] and either returns or raises.
    Python objects that the program serialises (the result envelopes and
    the records inside them) are kept as Python values ([value]), with
    dictionaries as association lists in insertion order.  A Python
    string is the list of its code points. *)

From Stdlib Require Import ZArith NArith String Ascii List Bool Lia.
From Stdlib Require Import DecimalString.
Import ListNotations.
Local Open Scope string_scope.
Local Open Scope list_scope.
Local Open Scope Z_scope.

(** ** Python strings

    A [str] is a sequence of Unicode code points: its length counts code
    points and a slice cuts between them.  A literal of this file is
    ASCII text and stands, through [u], for the string of its characters'
    codes. *)

Definition codepoint : Type := N.

Definition str : Type := list codepoint.

(** The code point of an ASCII character. *)
Definition chr (c : ascii) : codepoint := N.of_nat (nat_of_ascii c).

(** The string of an ASCII literal. *)
Definition u (s : string) : str := map chr (list_ascii_of_string s).

Coercion u : string >-> str.

Declare Scope str_scope.
Delimit Scope str_scope with str.
Bind Scope str_scope with str.

Notation "a ++ b" := (@app codepoint (a : str) (b : str)) : str_scope.

(** [not s] for a string: only the empty string is falsy. *)
Definition is_empty (s : str) : bool :=
  match s with
  | [] => true
  | _ :: _ => false
  end.

(** ** Python values *)

#[warnings="-register-all"]
Inductive value : Type :=
| VNone
| VBool (b : bool)
| VInt (z : Z)
| VStr (s : str)
| VList (l : list value)
| VDict (d : list (string * value)).

Definition dict := list (string * value).

(** [d[key]] on an association list (first binding wins); the keys are the
    field names that the code writes out. *)
Fixpoint lookup (key : string) (d : dict) : option value :=
  match d with
  | [] => None
  | (k, v) :: d' => if String.eqb key k then Some v else lookup key d'
  end.

(** [env[key]] when [env] is a dictionary. *)
Definition field (key : string) (env : value) : option value :=
  match env with
  | VDict d => lookup key d
  | _ => None
  end.

Definition v_opt_int (o : option Z) : value :=
  match o with Some z => VInt z | None => VNone end.

Definition v_opt_str (o : option str) : value :=
  match o with Some s => VStr s | None => VNone end.

(** [str(z)] for an integer. *)
Definition str_of_Z (z : Z) : str := NilZero.string_of_int (Z.to_int z).

(** [s[:n]]: the first [n] code points, the whole string when it is
    shorter. *)
Definition slice_to (n : nat) (s : str) : str := firstn n s.

(** Truthiness of an optional string ([None] and [""] are falsy). *)
Definition truthy_str (o : option str) : bool :=
  match o with
  | Some s => negb (is_empty s)
  | None => false
  end.

(** Truthiness of an optional integer ([None] and [0] are falsy). *)
Definition truthy_int (o : option Z) : bool :=
  match o with
  | Some z => negb (z =? 0)
  | None => false
  end.

(** ** Exceptions *)

(** [Exception cls msg] stands for an instance of any class below
    [Exception], with [type(e).__name__ = cls] and [str(e) = msg].  The
    other constructors are the [BaseException]s that [except Exception]
    lets through. *)
Inductive exn : Type :=
| Exception (cls msg : str)
| KeyboardInterrupt
| SystemExit (code : Z)
| CancelledError.

Definition is_Exception (e : exn) : bool :=
  match e with Exception _ _ => true | _ => false end.

Inductive outcome (A : Type) : Type :=
| Ok (a : A)
| Raised (e : exn).
Arguments Ok {A} a.
Arguments Raised {A} e.

(** ** Naive and aware datetimes *)

Record datetime : Type := mk_datetime {
  year : Z; month : Z; day : Z;
  hour : Z; minute : Z; second : Z; microsecond : Z;
  tzinfo : option Z  (* UTC offset in minutes; [None] for a naive value *)
}.

(** [dt.replace(tzinfo=tz)] *)
Definition replace_tzinfo (dt : datetime) (tz : option Z) : datetime :=
  mk_datetime (year dt) (month dt) (day dt)
              (hour dt) (minute dt) (second dt) (microsecond dt) tz.

(** [dt.replace(hour=h, minute=mi, second=s, microsecond=us)] *)
Definition replace_time (dt : datetime) (h mi s us : Z) : datetime :=
  mk_datetime (year dt) (month dt) (day dt) h mi s us (tzinfo dt).

Definition lex (c1 c2 : comparison) : comparison :=
  match c1 with Eq => c2 | _ => c1 end.

(** Comparison of two naive datetimes: field by field, most significant
    first. *)
Definition dt_cmp (a b : datetime) : comparison :=
  lex (year a ?= year b)
 (lex (month a ?= month b)
 (lex (day a ?= day b)
 (lex (hour a ?= hour b)
 (lex (minute a ?= minute b)
 (lex (second a ?= second b)
      (microsecond a ?= microsecond b)))))).

Definition dt_ltb (a b : datetime) : bool :=
  match dt_cmp a b with Lt => true | _ => false end.

Definition dt_leb (a b : datetime) : bool :=
  match dt_cmp a b with Gt => false | _ => true end.

(** Zero padding to [width] digits, for non-negative numbers (ASCII). *)
Fixpoint zeros (n : nat) : string :=
  match n with O => "" | S n' => String "0" (zeros n') end.

Definition pad (width : nat) (z : Z) : string :=
  let s := NilZero.string_of_int (Z.to_int z) in
  (zeros (width - String.length s) ++ s)%string.

(** [dt.isoformat()] *)
Definition isoformat (dt : datetime) : str :=
  (pad 4 (year dt) ++ "-" ++ pad 2 (month dt) ++ "-" ++ pad 2 (day dt)
   ++ "T" ++ pad 2 (hour dt) ++ ":" ++ pad 2 (minute dt)
   ++ ":" ++ pad 2 (second dt)
   ++ (if (microsecond dt =? 0)%Z then "" else "." ++ pad 6 (microsecond dt))
   ++ match tzinfo dt with
      | None => ""
      | Some off =>
          (if (off <? 0)%Z then "-" else "+")
          ++ pad 2 (Z.abs off / 60)%Z ++ ":" ++ pad 2 (Z.abs off mod 60)%Z
      end)%string.

(** ** ASCII character classes *)

(** The class [[lo-hi]] of a regular expression. *)
Definition in_range (lo hi : ascii) (c : codepoint) : bool :=
  ((chr lo <=? c) && (c <=? chr hi))%N.

(** The literal character [a] of a regular expression. *)
Definition is_char (a : ascii) (c : codepoint) : bool := (c =? chr a)%N.

(** The value of an ASCII digit. *)
Definition digit_val (c : codepoint) : Z := Z.of_N c - 48.

(** Replaces the code of each ASCII character by its number. *)
Ltac chr_eval :=
  repeat match goal with
         | |- context [chr ?a] =>
             let v := eval vm_compute in (chr a) in change (chr a) with v
         | H : context [chr ?a] |- _ =>
             let v := eval vm_compute in (chr a) in
             change (chr a) with v in H
         end.

Definition is_leap (y : Z) : bool :=
  (y mod 4 =? 0) && (negb (y mod 100 =? 0) || (y mod 400 =? 0)).

Definition days_in_month (y m : Z) : Z :=
  if m =? 2 then (if is_leap y then 29 else 28)
  else if (m =? 4) || (m =? 6) || (m =? 9) || (m =? 11) then 30
  else 31.

Section Unicode.

(** The decimal digits of the Unicode database that the interpreter was
    built with: [unicode_decimal c] is the digit that the code point [c]
    stands for when [c] is a decimal digit (general category Nd, in any
    script), and [None] for every other code point.  In a pattern over
    [str], [\d] matches exactly these code points, and [int] reads them.
    Which code points they are, beyond the ASCII ones, depends on the
    version of the database. *)
Variable unicode_decimal : codepoint -> option Z.

Hypothesis unicode_decimal_ascii :
  forall c, in_range "0" "9" c = true -> unicode_decimal c = Some (digit_val c).

(** ** [datetime.strptime(s, "%Y-%m-%d")]

    The standard library turns the format into the regular expression
    [(\d\d\d\d)-(1[0-2]|0[1-9]|[1-9])-(3[0-1]|[1-2]\d|0[1-9]|[1-9]| [1-9])],
    matches it at the start of the string, rejects unconverted trailing
    data, reads the three groups with [int] and then builds the date,
    rejecting year 0 and days that the month does not have.  Every
    rejection is a [ValueError], here [None].  A month or a day may be
    written without its leading zero; the digits of the year and the
    second digit of a day from 10 to 29 may be decimal digits of any
    script. *)

(** [\d\d\d\d], read by [int] *)
Definition match_Y (s : str) : option (Z * str) :=
  match s with
  | a :: b :: c :: d :: rest =>
      match unicode_decimal a, unicode_decimal b,
            unicode_decimal c, unicode_decimal d with
      | Some va, Some vb, Some vc, Some vd =>
          Some (1000 * va + 100 * vb + 10 * vc + vd, rest)
      | _, _, _, _ => None
      end
  | _ => None
  end.

(** The ways [1[0-2]|0[1-9]|[1-9]] matches a prefix, in priority order. *)
Definition alts_m (s : str) : list (Z * str) :=
  match s with
  | a :: rest =>
      (match rest with
       | b :: rest' =>
           (if is_char "1" a && in_range "0" "2" b
            then [(10 + digit_val b, rest')] else [])
           ++ (if is_char "0" a && in_range "1" "9" b
               then [(digit_val b, rest')] else [])
       | [] => []
       end)
      ++ (if in_range "1" "9" a then [(digit_val a, rest)] else [])
  | [] => []
  end.

(** The first way [3[0-1]|[1-2]\d|0[1-9]|[1-9]| [1-9]] matches a prefix. *)
Definition match_d (s : str) : option (Z * str) :=
  match s with
  | a :: rest =>
      let two :=
        match rest with
        | b :: rest' =>
            if is_char "3" a && in_range "0" "1" b
            then Some (30 + digit_val b, rest')
            else
              match in_range "1" "2" a, unicode_decimal b with
              | true, Some vb => Some (10 * digit_val a + vb, rest')
              | _, _ =>
                  if is_char "0" a && in_range "1" "9" b
                  then Some (digit_val b, rest')
                  else None
              end
        | [] => None
        end in
      match two with
      | Some r => Some r
      | None =>
          if in_range "1" "9" a then Some (digit_val a, rest)
          else match rest with
               | b :: rest' =>
                   if is_char " " a && in_range "1" "9" b
                   then Some (digit_val b, rest') else None
               | [] => None
               end
      end
  | [] => None
  end.

(** After a month alternative: the literal [-] and a day.  The matcher
    backtracks over the month alternatives until the rest matches. *)
Fixpoint match_m_d (alts : list (Z * str)) : option (Z * Z * str) :=
  match alts with
  | [] => None
  | (m, c :: rest) :: alts' =>
      if is_char "-" c
      then match match_d rest with
           | Some (d, rest') => Some (m, d, rest')
           | None => match_m_d alts'
           end
      else match_m_d alts'
  | (_, []) :: alts' => match_m_d alts'
  end.

Definition strptime_ymd (s : str) : option datetime :=
  match match_Y s with
  | Some (y, c :: rest) =>
      if is_char "-" c
      then
        match match_m_d (alts_m rest) with
        | Some (m, d, []) =>
            if (1 <=? y) && (d <=? days_in_month y m)
            then Some (mk_datetime y m d 0 0 0 0 None)
            else None
        | _ => None
        end
      else None
  | _ => None
  end.

(** [date_obj.replace(hour=0, minute=0, second=0, microsecond=0)] and
    [date_obj.replace(hour=23, minute=59, second=59, microsecond=999999)] *)
Definition start_of_day (date_obj : datetime) : datetime :=
  replace_time date_obj 0 0 0 0.

Definition end_of_day (date_obj : datetime) : datetime :=
  replace_time date_obj 23 59 59 999999.

(** ** The external client, as a scripted double *)

Record Message : Type := mk_Message {
  id : Z;
  text : option str;
  date : option datetime;
  sender_id : option Z;
  out : bool;
  media : option str  (* [media.__class__.__name__] when there is media *)
}.

(** What an asynchronous message iterator does when it is driven: it ends,
    delivers an item and goes on, or raises. *)
Inductive Stream : Type :=
| SEnd
| SYield (message : option Message) (rest : Stream)
| SRaise (e : exn).

(** The stream that delivers [items] and then behaves as [tail]. *)
Fixpoint yields (items : list (option Message)) (tail : Stream) : Stream :=
  match items with
  | [] => tail
  | m :: items' => SYield m (yields items' tail)
  end.

(** What [iter_messages] is given as its first argument: a dialog's entity
    or a bare peer id. *)
Inductive entity_like : Type :=
| Entity (handle : nat)
| PeerId (peer : Z).

Record Dialog : Type := mk_Dialog {
  d_id : Z;
  title : option str;
  entity : entity_like
}.

Record User : Type := mk_User {
  u_id : Z;
  first_name : option str;
  last_name : option str;
  username : option str;
  phone : option str
}.

Record TelegramClient : Type := mk_TelegramClient {
  tc_start : outcome unit;
  tc_disconnect : outcome unit;
  tc_get_dialogs : outcome (list Dialog);
  tc_get_me : outcome User;
  (* iter_messages(entity, search=..., limit=...) *)
  tc_iter_messages : entity_like -> option str -> option Z -> Stream
}.

Inductive event : Type :=
| EvTelegramClient (session_name : str) (api_id : Z) (api_hash : str)
| EvStart
| EvDisconnect
| EvGetDialogs
| EvGetMe
| EvIterMessages (target : entity_like) (search : option str)
                 (limit : option Z)
| EvNext (message : option Message)  (* the iterator delivered an item *)
| EvPrint (line : str)
| EvPrintJson (v : value)            (* print(json.dumps(v, ...)) *)
| EvPrintHelp.

(** ** A monad for the code: mutable state, exceptions, a trace of events

    The state survives an exception, as a Python object or list that was
    mutated before the [raise] does. *)

Definition M (S A : Type) : Type := S -> outcome A * S * list event.

Definition ret {S A} (a : A) : M S A := fun s => (Ok a, s, []).

Definition bind {S A B} (m : M S A) (f : A -> M S B) : M S B :=
  fun s =>
    match m s with
    | (Ok a, s1, t1) =>
        match f a s1 with
        | (o, s2, t2) => (o, s2, t1 ++ t2)
        end
    | (Raised e, s1, t1) => (Raised e, s1, t1)
    end.

Notation "x <- m ;; k" := (bind m (fun x => k))
  (at level 61, m at next level, right associativity).
Notation "m ;; k" := (bind m (fun _ => k))
  (at level 61, right associativity).

Definition raise {S A} (e : exn) : M S A := fun s => (Raised e, s, []).

Definition emit {S} (ev : event) : M S unit := fun s => (Ok tt, s, [ev]).

Definition get_state {S} : M S S := fun s => (Ok s, s, []).

Definition put_state {S} (s' : S) : M S unit := fun _ => (Ok tt, s', []).

(** A call into the external client: the event, then its scripted result. *)
Definition call {S A} (ev : event) (r : outcome A) : M S A :=
  emit ev ;; match r with Ok a => ret a | Raised e => raise e end.

(** [try: body / except ...: handler]; [handler e = None] when no clause
    matches [e]. *)
Definition try_except {S A} (body : M S A) (handler : exn -> option (M S A))
  : M S A :=
  fun s =>
    match body s with
    | (Ok a, s1, t1) => (Ok a, s1, t1)
    | (Raised e, s1, t1) =>
        match handler e with
        | Some h => match h s1 with (o, s2, t2) => (o, s2, t1 ++ t2) end
        | None => (Raised e, s1, t1)
        end
    end.

(** [try: body / finally: fin] *)
Definition try_finally {S A} (body : M S A) (fin : M S unit) : M S A :=
  fun s =>
    match body s with
    | (o, s1, t1) =>
        match fin s1 with
        | (Ok _, s2, t2) => (o, s2, t1 ++ t2)
        | (Raised e, s2, t2) => (Raised e, s2, t1 ++ t2)
        end
    end.

(** A block with a local variable of type [L], initially [init]; the value
    of the variable when the block completes is returned with its result. *)
Definition with_local {S L A} (init : L) (body : M L A) : M S (A * L) :=
  fun s =>
    match body init with
    | (Ok a, l, t) => (Ok (a, l), s, t)
    | (Raised e, _, t) => (Raised e, s, t)
    end.

(** [results.append(r)] *)
Definition append (r : value) : M (list value) unit :=
  fun results => (Ok tt, results ++ [r], []).

Definition print {S} (line : str) : M S unit := emit (EvPrint line).

Definition print_json {S} (v : value) : M S unit := emit (EvPrintJson v).

Definition sys_exit {S A} (code : Z) : M S A := raise (SystemExit code).

(** ** TelegramSearchClient *)

Record TelegramSearchClient : Type := mk_TelegramSearchClient {
  api_id : Z;
  api_hash : str;
  session_name : str;
  client : option TelegramClient
}.

(** What the process sees of its surroundings. *)
Record World : Type := mk_World {
  getenv : str -> option str;
  path_exists : str -> bool;
  (* TelegramClient(session_name, api_id, api_hash) *)
  new_TelegramClient : str -> Z -> str -> outcome TelegramClient
}.

(** [self.client.<attr>]: an [AttributeError] when [self.client] is [None]. *)
Definition self_client (attr : str) : M TelegramSearchClient TelegramClient :=
  self <- get_state ;;
  match client self with
  | Some c => ret c
  | None =>
      raise (Exception "AttributeError"
               ("'NoneType' object has no attribute '" ++ attr ++ "'"))
  end.

Definition connect (w : World) : M TelegramSearchClient unit :=
  self <- get_state ;;
  c <- call (EvTelegramClient (session_name self) (api_id self) (api_hash self))
            (new_TelegramClient w (session_name self) (api_id self)
                                (api_hash self)) ;;
  put_state (mk_TelegramSearchClient (api_id self) (api_hash self)
                                     (session_name self) (Some c)) ;;
  if negb (path_exists w (session_name self ++ ".session"))
  then
    print "[INFO] No existing session found. Starting authentication..." ;;
    call EvStart (tc_start c) ;;
    print "[INFO] Session saved. You can now use this client without re-authenticating."
  else
    print "[INFO] Using existing session..." ;;
    call EvStart (tc_start c).

Definition disconnect : M TelegramSearchClient unit :=
  self <- get_state ;;
  match client self with
  | Some c => call EvDisconnect (tc_disconnect c)
  | None => ret tt
  end.

(** [a or b] for an optional string [a] *)
Definition or_str (a : option str) (b : str) : str :=
  match a with
  | Some s => if is_empty s then b else s
  | None => b
  end.

(** *** search_global *)

(** The dictionary appended for a message whose text is [t]. *)
Definition match_record (chat_id_val : Z) (chat_title : str)
                        (message : Message) (t : str) : value :=
  VDict [("chat_id", VInt chat_id_val);
         ("chat_title", VStr chat_title);
         ("message_id", VInt (id message));
         ("text", VStr (slice_to 500 t));
         ("date", match date message with
                  | Some d => VStr (isoformat d)
                  | None => VNone
                  end);
         ("sender_id", v_opt_int (sender_id message))].

(** [async for message in ...: if message and message.text: results.append(...)] *)
Fixpoint search_messages (chat_id_val : Z) (chat_title : str) (s : Stream)
  : M (list value) unit :=
  match s with
  | SEnd => ret tt
  | SRaise e => raise e
  | SYield message rest =>
      emit (EvNext message) ;;
      match message with
      | Some m =>
          match text m with
          | Some t =>
              if negb (is_empty t)
              then append (match_record chat_id_val chat_title m t)
              else ret tt
          | None => ret tt
          end
      | None => ret tt
      end ;;
      search_messages chat_id_val chat_title rest
  end.

(** [for dialog in dialogs: ... try: ... except Exception: pass] *)
Fixpoint search_dialogs (c : TelegramClient) (query : str)
                        (dialogs : list Dialog) : M (list value) unit :=
  match dialogs with
  | [] => ret tt
  | dialog :: dialogs' =>
      let chat_title := or_str (title dialog) ("Chat " ++ str_of_Z (d_id dialog)) in
      let chat_id_val := d_id dialog in
      try_except
        (emit (EvIterMessages (entity dialog) (Some query) (Some 100)) ;;
         search_messages chat_id_val chat_title
           (tc_iter_messages c (entity dialog) (Some query) (Some 100)))
        (fun e => if is_Exception e then Some (ret tt) else None) ;;
      search_dialogs c query dialogs'
  end.

Definition not_found_envelope (chat_id : Z) : value :=
  VDict [("error", VStr ("Chat ID " ++ str_of_Z chat_id ++ " not found"));
         ("results", VList [])].

Definition search_envelope (query : str) (results : list value) : value :=
  VDict [("query", VStr query);
         ("results", VList results);
         ("total", VInt (Z.of_nat (length results)))].

(** The selection of the dialogs ends the call early ([inl]) or goes on to
    the scan ([inr]). *)
Definition search_global (query : str) (chat_id : option Z)
  : M TelegramSearchClient value :=
  c <- self_client "get_dialogs" ;;
  selected <-
    match chat_id with
    | Some cid =>
        if negb (cid =? 0)
        then
          all <- call EvGetDialogs (tc_get_dialogs c) ;;
          match filter (fun dialog => d_id dialog =? cid) all with
          | [] => ret (inl (not_found_envelope cid))
          | dialogs => ret (inr dialogs)
          end
        else
          all <- call EvGetDialogs (tc_get_dialogs c) ;;
          ret (inr all)
    | None =>
        all <- call EvGetDialogs (tc_get_dialogs c) ;;
        ret (inr all)
    end ;;
  match selected with
  | inl envelope => ret envelope
  | inr dialogs =>
      r <- with_local [] (search_dialogs c query dialogs) ;;
      ret (search_envelope query (snd r))
  end.

(** *** scrape_saved_messages *)

Definition scrape_record (message : Message) (d : datetime) : value :=
  VDict [("message_id", VInt (id message));
         ("text", VStr (or_str (text message) ""));
         ("date", VStr (isoformat d));
         ("is_read", VBool (negb (out message)));
         ("media_type", v_opt_str (media message))].

(** [start_of_day <= msg_date <= end_of_day] *)
Definition in_window (start_ end_ msg_date : datetime) : bool :=
  dt_leb start_ msg_date && dt_leb msg_date end_.

(** The [async for] over Saved Messages, with its [break]. *)
Fixpoint scrape_messages (start_ end_ : datetime) (s : Stream)
  : M (list value) unit :=
  match s with
  | SEnd => ret tt
  | SRaise e => raise e
  | SYield message rest =>
      emit (EvNext message) ;;
      match message with
      | Some m =>
          match date m with
          | Some d =>
              let msg_date := replace_tzinfo d None in
              (if in_window start_ end_ msg_date
               then append (scrape_record m d)
               else ret tt) ;;
              if dt_ltb msg_date start_
              then ret tt
              else scrape_messages start_ end_ rest
          | None => scrape_messages start_ end_ rest
          end
      | None => scrape_messages start_ end_ rest
      end
  end.

Definition invalid_date_envelope : value :=
  VDict [("error", VStr "Invalid date format. Use YYYY-MM-DD");
         ("results", VList [])].

Definition scrape_failed_envelope (msg : str) : value :=
  VDict [("error", VStr ("Failed to scrape Saved Messages: " ++ msg));
         ("results", VList [])].

Definition scrape_envelope (target_date : str) (results : list value)
  : value :=
  VDict [("date", VStr target_date);
         ("results", VList results);
         ("total", VInt (Z.of_nat (length results)))].

Definition scrape_saved_messages (target_date : str)
  : M TelegramSearchClient value :=
  match strptime_ymd target_date with
  | None => ret invalid_date_envelope
  | Some date_obj =>
      c <- self_client "get_me" ;;
      me <- call EvGetMe (tc_get_me c) ;;
      let saved_messages_id := u_id me in
      r <- with_local []
             (try_except
                (emit (EvIterMessages (PeerId saved_messages_id) None None) ;;
                 scrape_messages (start_of_day date_obj) (end_of_day date_obj)
                   (tc_iter_messages c (PeerId saved_messages_id) None None) ;;
                 ret None)
                (fun e =>
                   match e with
                   | Exception _ msg =>
                       Some (ret (Some (scrape_failed_envelope msg)))
                   | _ => None
                   end)) ;;
      match r with
      | (Some envelope, _) => ret envelope
      | (None, results) => ret (scrape_envelope target_date results)
      end
  end.

(** *** get_me *)

Definition get_me : M TelegramSearchClient value :=
  c <- self_client "get_me" ;;
  me <- call EvGetMe (tc_get_me c) ;;
  ret (VDict [("user_id", VInt (u_id me));
              ("first_name", v_opt_str (first_name me));
              ("last_name", v_opt_str (last_name me));
              ("username", v_opt_str (username me));
              ("phone", v_opt_str (phone me))]).

(** ** main *)

Record Args : Type := mk_Args {
  auth : bool;
  search : option str;
  chat_id : option Z;
  scrape_saved : option str;
  whoami : bool;
  arg_api_id : option Z;
  arg_api_hash : option str
}.

Definition newline : str := [10%N].

Section CommandSurface.

(** The builtin [int] on a string; [None] stands for [ValueError]. *)
Variable py_int : str -> option Z.

(** [args.api_id or os.getenv("TELEGRAM_API_ID")], then [int(api_id)];
    [inl] tells which of the two refusals applies. *)
Definition resolve_api_id (w : World) (args : Args) : bool + Z :=
  if truthy_int (arg_api_id args)
  then match arg_api_id args with Some z => inr z | None => inl false end
  else
    match getenv w "TELEGRAM_API_ID" with
    | Some s =>
        if is_empty s then inl false
        else match py_int s with Some z => inr z | None => inl true end
    | None => inl false
    end.

(** [args.api_hash or os.getenv("TELEGRAM_API_HASH")] *)
Definition resolve_api_hash (w : World) (args : Args) : option str :=
  if truthy_str (arg_api_hash args) then arg_api_hash args
  else getenv w "TELEGRAM_API_HASH".

Definition dispatch (w : World) (args : Args) : M TelegramSearchClient unit :=
  connect w ;;
  if auth args then
    me <- get_me ;;
    self <- get_state ;;
    print_json (VDict [("status", VStr "authenticated");
                       ("user", me);
                       ("session_file",
                        VStr (session_name self ++ ".session"))])
  else if whoami args then
    me <- get_me ;;
    print_json me
  else if truthy_str (search args) then
    results <- search_global (or_str (search args) "") (chat_id args) ;;
    print_json results
  else if truthy_str (scrape_saved args) then
    results <- scrape_saved_messages (or_str (scrape_saved args) "") ;;
    print_json results
  else emit EvPrintHelp.

(** The [except KeyboardInterrupt] and [except Exception as e] clauses
    of [main]. *)
Definition main_except (e : exn) : option (M TelegramSearchClient unit) :=
  match e with
  | KeyboardInterrupt =>
      Some (print (newline ++ "[INFO] Interrupted by user") ;;
            sys_exit 0)
  | Exception cls msg =>
      Some (print_json (VDict [("error", VStr msg);
                               ("error_type", VStr cls)]) ;;
            sys_exit 1)
  | _ => None
  end.

Definition main (w : World) (args : Args) : M unit unit :=
  let api_id := resolve_api_id w args in
  let api_hash := resolve_api_hash w args in
  match api_id, truthy_str api_hash with
  | inl false, _ | _, false =>
      print "ERROR: TELEGRAM_API_ID and TELEGRAM_API_HASH must be set" ;;
      print "Set them as environment variables or pass --api-id and --api-hash" ;;
      sys_exit 1
  | inl true, true =>
      print "ERROR: TELEGRAM_API_ID must be an integer" ;;
      sys_exit 1
  | inr api_id, true =>
      with_local
        (mk_TelegramSearchClient api_id (or_str api_hash "") "anon" None)
        (try_finally (try_except (dispatch w args) main_except)
                     disconnect) ;;
      ret tt
  end.

End CommandSurface.

(** * Vocabulary for the properties *)

(** ** What a stream delivers, what the loops take and append *)

(** The items a stream delivers when it is driven to its end. *)
Fixpoint delivered (s : Stream) : list (option Message) :=
  match s with
  | SYield message rest => message :: delivered rest
  | _ => []
  end.

(** How a stream that is driven to its end finishes. *)
Fixpoint finish (s : Stream) : outcome unit :=
  match s with
  | SEnd => Ok tt
  | SYield _ rest => finish rest
  | SRaise e => Raised e
  end.

(** The items that a trace records as delivered. *)
Definition delivered_of (tr : list event) : list (option Message) :=
  flat_map (fun ev => match ev with EvNext m => [m] | _ => [] end) tr.

(** The record, if any, that the search loop appends for one item. *)
Definition search_hit (chat_id_val : Z) (chat_title : str)
                      (message : option Message) : list value :=
  match message with
  | Some m =>
      match text m with
      | Some t =>
          if negb (is_empty t)
          then [match_record chat_id_val chat_title m t] else []
      | None => []
      end
  | None => []
  end.

Definition search_hits (chat_id_val : Z) (chat_title : str)
                       (items : list (option Message)) : list value :=
  flat_map (search_hit chat_id_val chat_title) items.

(** The record, if any, that the scrape loop appends for one item. *)
Definition scrape_hit (start_ end_ : datetime)
                      (message : option Message) : list value :=
  match message with
  | Some m =>
      match date m with
      | Some d =>
          if in_window start_ end_ (replace_tzinfo d None)
          then [scrape_record m d] else []
      | None => []
      end
  | None => []
  end.

Definition scrape_hits (start_ end_ : datetime)
                       (items : list (option Message)) : list value :=
  flat_map (scrape_hit start_ end_) items.

(** [below start_ message]: the message has a timestamp strictly below the
    window start, which is what makes the scrape loop [break]. *)
Definition below (start_ : datetime) (message : option Message) : bool :=
  match message with
  | Some m =>
      match date m with
      | Some d => dt_ltb (replace_tzinfo d None) start_
      | None => false
      end
  | None => false
  end.

(** The items the scrape loop takes from a stream: everything up to and
    including the first item below the window start. *)
Fixpoint consumed (start_ : datetime) (s : Stream) : list (option Message) :=
  match s with
  | SYield message rest =>
      message :: (if below start_ message then [] else consumed start_ rest)
  | _ => []
  end.

(** How the scrape loop leaves a stream: by its [break], at the end of the
    stream, or by the exception the stream raises. *)
Fixpoint scrape_finish (start_ : datetime) (s : Stream) : outcome unit :=
  match s with
  | SEnd => Ok tt
  | SYield message rest =>
      if below start_ message then Ok tt else scrape_finish start_ rest
  | SRaise e => Raised e
  end.

Definition dialog_title (d : Dialog) : str :=
  or_str (title d) ("Chat " ++ str_of_Z (d_id d)).

Definition dialog_stream (c : TelegramClient) (query : str) (d : Dialog)
  : Stream :=
  tc_iter_messages c (entity d) (Some query) (Some 100).

(** The records one dialog contributes: those of every message its search
    delivered, whether or not the search then failed. *)
Definition dialog_hits (c : TelegramClient) (query : str) (d : Dialog)
  : list value :=
  search_hits (d_id d) (dialog_title d) (delivered (dialog_stream c query d)).

Definition dialog_trace (c : TelegramClient) (query : str) (d : Dialog)
  : list event :=
  EvIterMessages (entity d) (Some query) (Some 100)
  :: map EvNext (delivered (dialog_stream c query d)).

(** The search of the dialog ends normally or with an [Exception]. *)
Definition tolerated (c : TelegramClient) (query : str) (d : Dialog)
  : bool :=
  match finish (dialog_stream c query d) with
  | Ok _ => true
  | Raised e => is_Exception e
  end.

(** The search of the dialog raises. *)
Definition fails (c : TelegramClient) (query : str) (d : Dialog) : bool :=
  match finish (dialog_stream c query d) with
  | Ok _ => false
  | Raised _ => true
  end.

(** The dialogs that a call scans, given the listing [all]. *)
Definition scanned (chat_id : option Z) (all : list Dialog) : list Dialog :=
  match chat_id with
  | Some cid => if negb (cid =? 0) then filter (fun d => d_id d =? cid) all
                else all
  | None => all
  end.

Definition saved_stream (c : TelegramClient) (me : User) : Stream :=
  tc_iter_messages c (PeerId (u_id me)) None None.

(** ** The date argument, read strictly *)

(** The spec's reading of the date argument: four digits, a dash, two
    digits, a dash, two digits, and the three numbers a calendar date. *)
Definition spec_strict_YYYY_MM_DD (s : str) : bool :=
  match s with
  | [y1; y2; y3; y4; c5; m1; m2; c8; d1; d2] =>
      let y := 1000 * digit_val y1 + 100 * digit_val y2
               + 10 * digit_val y3 + digit_val y4 in
      let m := 10 * digit_val m1 + digit_val m2 in
      let d := 10 * digit_val d1 + digit_val d2 in
      is_char "-" c5 && is_char "-" c8
      && (in_range "0" "9" y1 && in_range "0" "9" y2
          && in_range "0" "9" y3 && in_range "0" "9" y4)
      && (in_range "0" "9" m1 && in_range "0" "9" m2)
      && (in_range "0" "9" d1 && in_range "0" "9" d2)
      && (1 <=? y) && ((1 <=? m) && (m <=? 12))
      && ((1 <=? d) && (d <=? days_in_month y m))
  | _ => false
  end.

(** ** Calls as data, to speak of one call after another *)

Inductive invocation : Type :=
| Search (query : str) (chat_id : option Z)
| Scrape (target_date : str).

Definition invoke (i : invocation) : M TelegramSearchClient value :=
  match i with
  | Search query chat_id => search_global query chat_id
  | Scrape target_date => scrape_saved_messages target_date
  end.

(** ** Counting the disconnects of a run *)

Definition is_disconnect (ev : event) : bool :=
  match ev with EvDisconnect => true | _ => false end.

(** How many times the external client's [disconnect] was called. *)
Definition disconnects (tr : list event) : nat :=
  length (filter is_disconnect tr).

(** A computation that never calls [disconnect]. *)
Definition quiet {S A} (m : M S A) : Prop :=
  forall s, disconnects (snd (m s)) = 0%nat.

(** A computation that leaves the state as it found it. *)
Definition stateless {S A} (m : M S A) : Prop :=
  forall s, snd (fst (m s)) = s.

Section Construction.

Variable py_int : str -> option Z.

(** What the construction of the external client does in a run, when
    the run gets as far as that: [None] when the credentials do not
    resolve and the run ends before. *)
Definition construction (w : World) (args : Args)
  : option (outcome TelegramClient) :=
  match resolve_api_id py_int w args,
        truthy_str (resolve_api_hash w args) with
  | inr api_id, true =>
      Some (new_TelegramClient w "anon" api_id
              (or_str (resolve_api_hash w args) ""))
  | _, _ => None
  end.

End Construction.

(** ** A scripted client for the examples

    Saved Messages of user 777 holds, newest first, one message of
    16 January 2024, two of 15 January, two of 14 January. *)

Definition utc (y mo d h mi s us : Z) : datetime :=
  mk_datetime y mo d h mi s us (Some 0).

Definition demo_msg (i : Z) (t : str) (d : datetime) : Message :=
  mk_Message i (Some t) (Some d) (Some 777) false None.

Definition demo_next_day : Message :=
  demo_msg 50 "tomorrow" (utc 2024 1 16 8 0 0 0).
Definition demo_day_end : Message :=
  demo_msg 40 "late" (utc 2024 1 15 23 59 59 999999).
Definition demo_day_start : Message :=
  demo_msg 30 "early" (utc 2024 1 15 0 0 0 0).
Definition demo_before : Message :=
  demo_msg 20 "yesterday" (utc 2024 1 14 23 59 59 999999).
Definition demo_before' : Message :=
  demo_msg 10 "older" (utc 2024 1 14 9 30 0 0).

Definition demo_me : User := mk_User 777 (Some (u "Ada")) None None None.

Definition demo_saved : Stream :=
  yields [Some demo_next_day; Some demo_day_end; Some demo_day_start]
         (SYield (Some demo_before) (SYield (Some demo_before') SEnd)).

(** The same archive, but the connection drops after the third message. *)
Definition demo_saved_broken : Stream :=
  yields [Some demo_next_day; Some demo_day_end; Some demo_day_start]
         (SRaise (Exception "ConnectionError" "connection lost")).

Definition demo_dialog (i : Z) (t : str) (h : nat) : Dialog :=
  mk_Dialog i (Some t) (Entity h).

Definition demo_alice : Dialog := demo_dialog 101 "Alice" 1.
Definition demo_bob : Dialog := demo_dialog 102 "Bob" 2.
Definition demo_carol : Dialog := demo_dialog 103 "Carol" 3.

Definition demo_dialogs : list Dialog := [demo_alice; demo_bob; demo_carol].

(** Searches: Alice has one hit; Bob delivers one hit and then fails;
    Carol has one hit.  Anything else is empty. *)
Definition demo_iter (saved : Stream) (target : entity_like)
                     (search : option str) (limit : option Z) : Stream :=
  match target, search with
  | PeerId 777, None => saved
  | Entity 1, Some _ =>
      SYield (Some (demo_msg 1 "hello from Alice" (utc 2024 1 15 10 0 0 0)))
             SEnd
  | Entity 2, Some _ =>
      SYield (Some (demo_msg 2 "hello from Bob" (utc 2024 1 15 11 0 0 0)))
             (SRaise (Exception "FloodWaitError"
                                "A wait of 30 seconds is required"))
  | Entity 3, Some _ =>
      SYield (Some (demo_msg 3 "hello from Carol" (utc 2024 1 15 12 0 0 0)))
             SEnd
  | _, _ => SEnd
  end.

Definition demo_client (saved : Stream) : TelegramClient :=
  mk_TelegramClient (Ok tt) (Ok tt) (Ok demo_dialogs) (Ok demo_me)
                    (demo_iter saved).

Definition demo_self (saved : Stream) : TelegramSearchClient :=
  mk_TelegramSearchClient 12345 "0123456789abcdef" "anon"
                          (Some (demo_client saved)).

Definition demo_date : datetime := mk_datetime 2024 1 15 0 0 0 0 None.

Definition demo_hit (d : Dialog) (i : Z) (t : str) (h : Z) : value :=
  match_record (d_id d) (dialog_title d)
               (demo_msg i t (utc 2024 1 15 h 0 0 0)) t.

Definition demo_search_trace : list event :=
  [EvGetDialogs;
   EvIterMessages (Entity 1) (Some (u "hello")) (Some 100);
   EvNext (Some (demo_msg 1 "hello from Alice" (utc 2024 1 15 10 0 0 0)));
   EvIterMessages (Entity 2) (Some (u "hello")) (Some 100);
   EvNext (Some (demo_msg 2 "hello from Bob" (utc 2024 1 15 11 0 0 0)));
   EvIterMessages (Entity 3) (Some (u "hello")) (Some 100);
   EvNext (Some (demo_msg 3 "hello from Carol" (utc 2024 1 15 12 0 0 0)))].

(** A message whose text has 600 characters. *)
Definition demo_long : Message :=
  demo_msg 7 (zeros 600) (utc 2024 1 15 13 0 0 0).

(** A world in which the session database is locked, so that the
    construction of the external client raises. *)
Definition demo_locked_world : World :=
  mk_World (fun _ => None) (fun _ => true)
           (fun _ _ _ => Raised (Exception "OperationalError"
                                           "database is locked")).

(** A world in which the external client is the scripted one. *)
Definition demo_world : World :=
  mk_World (fun _ => None) (fun _ => true)
           (fun _ _ _ => Ok (demo_client demo_saved)).

Definition demo_args : Args :=
  mk_Args false (Some (u "hello")) None None false
          (Some 12345) (Some (u "0123456789abcdef")).

(** A world in which the user interrupts the listing of the dialogs. *)
Definition demo_interrupted_world : World :=
  mk_World (fun _ => None) (fun _ => true)
           (fun _ _ _ =>
              Ok (mk_TelegramClient (Ok tt) (Ok tt) (Raised KeyboardInterrupt)
                                    (Ok demo_me) (demo_iter demo_saved))).

(** The same command line without credentials. *)
Definition demo_args_bare : Args :=
  mk_Args false (Some (u "hello")) None None false None None.

(** ** More vocabulary: order of a stream, calendar days, kinds of events *)

(** The timezone-stripped timestamp of an item, when it has one. *)
Definition stamp (message : option Message) : option datetime :=
  match message with
  | Some m =>
      match date m with
      | Some d => Some (replace_tzinfo d None)
      | None => None
      end
  | None => None
  end.


(** The stream without the items that are missing or carry no date. *)
Fixpoint dated_only (s : Stream) : Stream :=
  match s with
  | SEnd => SEnd
  | SYield message rest =>
      match stamp message with
      | Some _ => SYield message (dated_only rest)
      | None => dated_only rest
      end
  | SRaise e => SRaise e
  end.

(** The time-of-day fields of an actual datetime. *)
Definition valid_time (d : datetime) : Prop :=
  0 <= hour d <= 23 /\ 0 <= minute d <= 59 /\ 0 <= second d <= 59
  /\ 0 <= microsecond d <= 999999.

Definition same_day (a b : datetime) : Prop :=
  year a = year b /\ month a = month b /\ day a = day b.

(** Output lines, as opposed to calls into the external client and the
    printed result. *)
Definition is_notice (ev : event) : bool :=
  match ev with EvPrint _ => true | _ => false end.

(** The trace without its output lines. *)
Definition calls (tr : list event) : list event :=
  filter (fun ev => negb (is_notice ev)) tr.

(** An event of a search or of a scrape: a listing, an iteration, an item. *)
Definition is_scan (ev : event) : bool :=
  match ev with
  | EvGetDialogs | EvIterMessages _ _ _ | EvNext _ => true
  | _ => false
  end.

(** The client object that [main] creates. *)
Definition new_self (api_id : Z) (api_hash : str) : TelegramSearchClient :=
  mk_TelegramSearchClient api_id api_hash "anon" None.

(** What [disconnect] does in the state [self]. *)
Definition disconnect_outcome (self : TelegramSearchClient) : outcome unit :=
  match client self with
  | Some c => tc_disconnect c
  | None => Ok tt
  end.

(** The exit of [main] when its [try] body ended as [o] and [disconnect]
    returned. *)
Definition exit_of (o : outcome unit) : outcome unit :=
  match o with
  | Ok _ => Ok tt
  | Raised KeyboardInterrupt => Raised (SystemExit 0)
  | Raised (Exception _ _) => Raised (SystemExit 1)
  | Raised e => Raised e
  end.

(** The same world with another answer about the session file. *)
Definition with_session_file (w : World) (present : bool) : World :=
  mk_World (getenv w) (fun _ => present) (new_TelegramClient w).

(** Equality of two strings. *)
Fixpoint str_eqb (a b : str) : bool :=
  match a, b with
  | [], [] => true
  | x :: a', y :: b' => (x =? y)%N && str_eqb a' b'
  | _, _ => false
  end.

(** A message without a date, and one that is missing. *)
Definition demo_dateless : Message :=
  mk_Message 35 (Some (u "service")) None None false None.

Definition demo_saved_gaps : Stream :=
  SYield (Some demo_next_day)
    (SYield None
       (SYield (Some demo_day_end)
          (SYield (Some demo_dateless)
             (SYield (Some demo_day_start)
                (SYield (Some demo_before) SEnd))))).

(** A client whose listing of the dialogs the user interrupts at Bob. *)
Definition demo_iter_interrupted (target : entity_like)
                                 (search : option str) (limit : option Z)
  : Stream :=
  match target, search with
  | Entity 2, Some _ =>
      SYield (Some (demo_msg 2 "hello from Bob" (utc 2024 1 15 11 0 0 0)))
             (SRaise KeyboardInterrupt)
  | _, _ => demo_iter SEnd target search limit
  end.

Definition demo_client_interrupted : TelegramClient :=
  mk_TelegramClient (Ok tt) (Ok tt) (Ok demo_dialogs) (Ok demo_me)
                    demo_iter_interrupted.

(** A client whose [get_me] fails. *)
Definition demo_client_anonymous : TelegramClient :=
  mk_TelegramClient (Ok tt) (Ok tt) (Ok demo_dialogs)
                    (Raised (Exception "RPCError" "AUTH_KEY_UNREGISTERED"))
                    (demo_iter demo_saved).

(** A client whose [start] fails. *)
Definition demo_client_refused : TelegramClient :=
  mk_TelegramClient (Raised (Exception "PhoneNumberInvalidError"
                                       "The phone number is invalid"))
                    (Ok tt) (Ok demo_dialogs) (Ok demo_me)
                    (demo_iter demo_saved).

Definition demo_world_refused : World :=
  mk_World (fun _ => None) (fun _ => false)
           (fun _ _ _ => Ok demo_client_refused).

(** Command lines. *)
Definition demo_args_scrape (target_date : str) : Args :=
  mk_Args false None None (Some target_date) false
          (Some 12345) (Some (u "0123456789abcdef")).

Definition demo_args_auth : Args :=
  mk_Args true (Some (u "hello")) (Some 101) (Some (u "2024-01-15")) true
          (Some 12345) (Some (u "0123456789abcdef")).

(** The environment holds an API id that is not a number. *)
Definition demo_world_bad_id : World :=
  mk_World (fun name => if str_eqb name "TELEGRAM_API_ID"
                        then Some (u "abc") else Some (u "0123456789abcdef"))
           (fun _ => true)
           (fun _ _ _ => Ok (demo_client demo_saved)).

(** A flag value that Python takes for false, read as no value. *)
Definition given_str (o : option str) : option str :=
  if truthy_str o then o else None.

Definition given_int (o : option Z) : option Z :=
  if truthy_int o then o else None.

(** The command line with every empty string and every zero left out. *)
Definition given (args : Args) : Args :=
  mk_Args (auth args) (given_str (search args)) (given_int (chat_id args))
          (given_str (scrape_saved args)) (whoami args)
          (given_int (arg_api_id args)) (given_str (arg_api_hash args)).

(** The command line [--search "" --scrape-saved 2024-01-15 --chat-id 0]. *)
Definition demo_args_empty_search : Args :=
  mk_Args false (Some (u "")) (Some 0) (Some (u "2024-01-15")) false
          (Some 12345) (Some (u "0123456789abcdef")).

(** ** A table of decimal digits

    The decimal digits of version 14.0 of the Unicode database, with which
    CPython 3.11 is built: 66 runs of ten consecutive code points, each run
    the digits 0 to 9 of one script, given by the code point of its zero. *)
Definition ucd_zeros : list codepoint :=
  [48; 1632; 1776; 1984; 2406; 2534; 2662; 2790; 2918; 3046; 3174; 3302;
   3430; 3558; 3664; 3792; 3872; 4160; 4240; 6112; 6160; 6470; 6608; 6784;
   6800; 6992; 7088; 7232; 7248; 42528; 43216; 43264; 43472; 43504; 43600;
   44016; 65296; 66720; 68912; 69734; 69872; 69942; 70096; 70384; 70736;
   70864; 71248; 71360; 71472; 71904; 72016; 72784; 73040; 73120; 92768;
   92864; 93008; 120782; 120792; 120802; 120812; 120822; 123200; 123632;
   125264; 130032]%N.

Definition ucd_decimal (c : codepoint) : option Z :=
  match find (fun z => (z <=? c) && (c <? z + 10))%N ucd_zeros with
  | Some z => Some (Z.of_N (c - z))
  | None => None
  end.

(** The date 2024-01-15 with its year in full-width digits, and with a
    full-width 5 in the day. *)
Definition demo_fullwidth_year : str :=
  [65298; 65296; 65298; 65300]%N ++ "-01-15".

Definition demo_fullwidth_day : str := "2024-01-1" ++ [65301%N].

(** * Properties *)

(** ** Streams, traces and hits *)

Lemma delivered_yields items tail :
  delivered (yields items tail) = items ++ delivered tail.
Proof.
  induction items as [|m items IH]; simpl; [reflexivity|].
  now rewrite IH.
Qed.

Lemma delivered_of_app t1 t2 :
  delivered_of (t1 ++ t2) = delivered_of t1 ++ delivered_of t2.
Proof. unfold delivered_of. apply flat_map_app. Qed.

Lemma delivered_of_next items :
  delivered_of (map EvNext items) = items.
Proof.
  induction items as [|m items IH]; simpl; [reflexivity|].
  now rewrite IH.
Qed.

Lemma search_hits_app c t l1 l2 :
  search_hits c t (l1 ++ l2) = search_hits c t l1 ++ search_hits c t l2.
Proof. unfold search_hits. apply flat_map_app. Qed.

Lemma scrape_hits_app st en l1 l2 :
  scrape_hits st en (l1 ++ l2) = scrape_hits st en l1 ++ scrape_hits st en l2.
Proof. unfold scrape_hits. apply flat_map_app. Qed.

Lemma search_hits_length cid ttl items :
  (length (search_hits cid ttl items) <= length items)%nat.
Proof.
  induction items as [|x items IH]; [apply le_n|].
  unfold search_hits in *. cbn [flat_map]. rewrite length_app.
  assert (length (search_hit cid ttl x) <= 1)%nat.
  { unfold search_hit. destruct x as [m|]; [|apply Nat.le_0_l].
    destruct (text m) as [t|]; [|apply Nat.le_0_l].
    destruct (negb _); [apply le_n | apply Nat.le_0_l]. }
  cbn [length]. lia.
Qed.

Lemma scrape_hits_length st en items :
  (length (scrape_hits st en items) <= length items)%nat.
Proof.
  induction items as [|x items IH]; [apply le_n|].
  unfold scrape_hits in *. cbn [flat_map]. rewrite length_app.
  assert (length (scrape_hit st en x) <= 1)%nat.
  { unfold scrape_hit. destruct x as [m|]; [|apply Nat.le_0_l].
    destruct (date m) as [d|]; [|apply Nat.le_0_l].
    destruct (in_window _ _ _); [apply le_n | apply Nat.le_0_l]. }
  cbn [length]. lia.
Qed.


Lemma slice_to_length n : forall s,
  length (slice_to n s) = Nat.min n (length s).
Proof. intros s. unfold slice_to. apply length_firstn. Qed.

Lemma is_empty_spec (s : str) : reflect (s = "") (is_empty s).
Proof. destruct s; constructor; [reflexivity | discriminate]. Qed.

(** ** The order on naive datetimes *)

Lemma lex_opp c1 c2 : CompOpp (lex c1 c2) = lex (CompOpp c1) (CompOpp c2).
Proof. now destruct c1. Qed.

Lemma dt_cmp_antisym a b : dt_cmp b a = CompOpp (dt_cmp a b).
Proof.
  unfold dt_cmp. rewrite !lex_opp, <- !Z.compare_antisym. reflexivity.
Qed.

Lemma dt_ltb_not_leb a b : dt_ltb a b = true -> dt_leb b a = false.
Proof.
  unfold dt_ltb, dt_leb. rewrite (dt_cmp_antisym a b).
  now destruct (dt_cmp a b).
Qed.


Lemma dt_ltb_irrefl a : dt_ltb a a = false.
Proof.
  unfold dt_ltb, dt_cmp. rewrite !Z.compare_refl. reflexivity.
Qed.

Lemma dt_ltb_trans a b c :
  dt_ltb a b = true -> dt_ltb b c = true -> dt_ltb a c = true.
Proof.
  destruct a as [ya ma da ha ia sa ua ta], b as [yb mb db hb ib sb ub tb],
           c as [yc mc dc hc ic sc uc tc].
  unfold dt_ltb, dt_cmp. cbn [year month day hour minute second microsecond].
  repeat
    match goal with
    | |- context [lex (?x ?= ?y) _] =>
        destruct (Z.compare_spec x y); cbn [lex]; try discriminate
    end;
  repeat
    match goal with
    | |- context [?x ?= ?y] => destruct (Z.compare_spec x y)
    end;
  try discriminate; try reflexivity; intros; exfalso; lia.
Qed.

Lemma start_leb_end date_obj :
  dt_leb (start_of_day date_obj) (end_of_day date_obj) = true.
Proof.
  unfold dt_leb, dt_cmp, start_of_day, end_of_day, replace_time; simpl.
  rewrite !Z.compare_refl. reflexivity.
Qed.

(** A message below the window start is outside the window. *)
Lemma below_not_in_window st en d :
  dt_ltb d st = true -> in_window st en d = false.
Proof.
  intros H. unfold in_window. now rewrite (dt_ltb_not_leb _ _ H).
Qed.

(** A message above the window end is outside the window. *)
Lemma above_not_in_window st en d :
  dt_ltb en d = true -> in_window st en d = false.
Proof.
  intros H. unfold in_window. rewrite (dt_ltb_not_leb _ _ H).
  apply andb_false_r.
Qed.

(** ** Dates written strictly as YYYY-MM-DD are accepted *)

Lemma in_range_N lo hi c :
  in_range lo hi c = true <-> (chr lo <= c <= chr hi)%N.
Proof. unfold in_range. now rewrite andb_true_iff, !N.leb_le. Qed.

Lemma in_range_false lo hi c :
  (c < chr lo \/ chr hi < c)%N -> in_range lo hi c = false.
Proof.
  unfold in_range. rewrite andb_false_iff, !N.leb_gt. tauto.
Qed.

Lemma is_char_N a c : is_char a c = true <-> c = chr a.
Proof. unfold is_char. apply N.eqb_eq. Qed.

Lemma is_char_false a c : c <> chr a -> is_char a c = false.
Proof. unfold is_char. apply N.eqb_neq. Qed.

Lemma days_in_month_le y m : days_in_month y m <= 31.
Proof.
  unfold days_in_month.
  destruct (m =? 2); [destruct (is_leap y); lia|].
  destruct (_ || _); lia.
Qed.

(** A month written with two ASCII digits is read as that month. *)
Lemma alts_m_strict m1 m2 rest :
  in_range "0" "9" m1 = true -> in_range "0" "9" m2 = true ->
  1 <= 10 * digit_val m1 + digit_val m2 <= 12 ->
  exists more,
    alts_m (m1 :: m2 :: rest)
    = (10 * digit_val m1 + digit_val m2, rest) :: more.
Proof.
  intros H1 H2 Hm. apply in_range_N in H1, H2. chr_eval.
  unfold digit_val in Hm. cbn [alts_m].
  assert (C : m1 = 49%N \/ m1 = 48%N) by lia.
  destruct C as [-> | ->].
  - rewrite (proj2 (is_char_N "1" 49%N)) by reflexivity.
    rewrite (proj2 (in_range_N "0" "2" m2)) by (chr_eval; lia).
    cbn [andb app]. eexists. reflexivity.
  - rewrite (is_char_false "1" 48%N) by discriminate.
    rewrite (proj2 (is_char_N "0" 48%N)) by reflexivity.
    rewrite (proj2 (in_range_N "1" "9" m2)) by (chr_eval; lia).
    cbn [andb app]. eexists. reflexivity.
Qed.

(** A day written with two ASCII digits is read as that day. *)
Lemma match_d_strict d1 d2 :
  in_range "0" "9" d1 = true -> in_range "0" "9" d2 = true ->
  1 <= 10 * digit_val d1 + digit_val d2 <= 31 ->
  match_d [d1; d2] = Some (10 * digit_val d1 + digit_val d2, []).
Proof.
  intros H1 H2 Hd.
  pose proof (unicode_decimal_ascii d2 H2) as Hu.
  apply in_range_N in H1, H2. chr_eval.
  unfold digit_val in Hd. cbn [match_d].
  assert (C : d1 = 51%N \/ (49 <= d1 <= 50)%N \/ d1 = 48%N) by lia.
  destruct C as [-> | [C | ->]].
  - rewrite (proj2 (is_char_N "3" 51%N)) by reflexivity.
    rewrite (proj2 (in_range_N "0" "1" d2)) by (chr_eval; lia).
    reflexivity.
  - rewrite (is_char_false "3" d1) by (chr_eval; lia).
    rewrite (proj2 (in_range_N "1" "2" d1)) by (chr_eval; lia).
    cbn [andb]. now rewrite Hu.
  - rewrite (is_char_false "3" 48%N) by discriminate.
    rewrite (in_range_false "1" "2" 48%N) by (chr_eval; lia).
    cbn [andb].
    rewrite (proj2 (is_char_N "0" 48%N)) by reflexivity.
    rewrite (proj2 (in_range_N "1" "9" d2)) by (chr_eval; lia).
    reflexivity.
Qed.

(** Every date written strictly as YYYY-MM-DD is accepted by the parse of
    the code, so what the parse rejects is never such a date. *)
Lemma strict_date_accepted s :
  spec_strict_YYYY_MM_DD s = true -> strptime_ymd s <> None.
Proof.
  destruct s as [|y1 [|y2 [|y3 [|y4 [|c5 [|m1 [|m2 [|c8 [|d1 [|d2 [|]]]]]]]]]]];
    try discriminate.
  cbn [spec_strict_YYYY_MM_DD]. cbv zeta.
  rewrite !andb_true_iff.
  intros [[[[[[[E5 E8] [[[Hy1 Hy2] Hy3] Hy4]] [Hm1 Hm2]] [Hd1 Hd2]] Hy]
            [Hma Hmb]] [Hda Hdb]].
  apply Z.leb_le in Hma, Hmb, Hda.
  unfold strptime_ymd. cbn [match_Y].
  rewrite (unicode_decimal_ascii _ Hy1), (unicode_decimal_ascii _ Hy2),
          (unicode_decimal_ascii _ Hy3), (unicode_decimal_ascii _ Hy4).
  rewrite E5.
  destruct (alts_m_strict m1 m2 [c8; d1; d2] Hm1 Hm2 (conj Hma Hmb))
    as (more & ->).
  cbn [match_m_d]. rewrite E8.
  assert (Hd31 : 10 * digit_val d1 + digit_val d2 <= 31).
  { apply Z.leb_le in Hdb.
    etransitivity; [exact Hdb | apply days_in_month_le]. }
  rewrite (match_d_strict d1 d2 Hd1 Hd2 (conj Hda Hd31)).
  rewrite Hy, Hdb. discriminate.
Qed.

(** ** Running the monad *)

Lemma bind_Ok {S A B} (m : M S A) (f : A -> M S B) s b s' tr :
  bind m f s = (Ok b, s', tr) ->
  exists a s1 t1 t2,
    m s = (Ok a, s1, t1) /\ f a s1 = (Ok b, s', t2) /\ tr = t1 ++ t2.
Proof.
  unfold bind. destruct (m s) as [[[a|e] s1] t1]; [|discriminate].
  destruct (f a s1) as [[o s2] t2] eqn:E. intros H. injection H as -> <- <-.
  now exists a, s1, t1, t2.
Qed.

Lemma self_client_Ok attr self c s1 t1 :
  self_client attr self = (Ok c, s1, t1) ->
  client self = Some c /\ s1 = self /\ t1 = [].
Proof.
  unfold self_client, bind, get_state.
  destruct (client self) as [c'|]; [|discriminate].
  cbn. intros H. now injection H as <- <- <-.
Qed.

Lemma call_Ok {S A} ev (r : outcome A) (s : S) a s1 t1 :
  call ev r s = (Ok a, s1, t1) -> r = Ok a /\ s1 = s /\ t1 = [ev].
Proof.
  unfold call, bind, emit. destruct r as [a'|e]; [|discriminate].
  cbn. intros H. now injection H as <- <- <-.
Qed.

(** ** The two loops *)

(** The search loop drives its stream to the end: it appends the hits of
    everything delivered, also when the stream then raises. *)
Lemma search_messages_spec cid ttl s : forall results,
  search_messages cid ttl s results
  = (finish s, results ++ search_hits cid ttl (delivered s),
     map EvNext (delivered s)).
Proof.
  induction s as [|message rest IH|e]; intros results.
  - simpl. unfold ret. now rewrite app_nil_r.
  - cbn [search_messages delivered finish map].
    unfold search_hits. cbn [flat_map]. fold (search_hits cid ttl).
    unfold bind at 1. cbn [emit].
    unfold bind at 1.
    assert (Hstep :
      (match message with
       | Some m =>
           match text m with
           | Some t =>
               if negb (is_empty t)
               then append (match_record cid ttl m t)
               else ret tt
           | None => ret tt
           end
       | None => ret tt
       end) results = (Ok tt, results ++ search_hit cid ttl message, [])).
    { unfold search_hit.
      destruct message as [m|]; [destruct (text m) as [t|]|];
        [destruct (negb (is_empty t))|..];
        unfold append, ret; now rewrite ?app_nil_r. }
    rewrite Hstep, IH. now rewrite <- app_assoc.
  - simpl. unfold raise. now rewrite app_nil_r.
Qed.

Lemma scrape_messages_spec st en s : forall results,
  scrape_messages st en s results
  = (scrape_finish st s, results ++ scrape_hits st en (consumed st s),
     map EvNext (consumed st s)).
Proof.
  induction s as [|message rest IH|e]; intros results.
  - simpl. unfold ret. now rewrite app_nil_r.
  - cbn [scrape_messages consumed scrape_finish map].
    unfold scrape_hits. cbn [flat_map]. fold (scrape_hits st en).
    unfold bind at 1. cbn [emit].
    destruct message as [m|]; [destruct (date m) as [d|] eqn:Hd|].
    + unfold bind at 1.
      assert (Hstep :
        (if in_window st en (replace_tzinfo d None)
         then append (scrape_record m d) else ret tt) results
        = (Ok tt, results ++ scrape_hit st en (Some m), [])).
      { unfold scrape_hit. rewrite Hd.
        destruct (in_window st en (replace_tzinfo d None));
          unfold append, ret; now rewrite ?app_nil_r. }
      rewrite Hstep. unfold below at 1 2 3. rewrite Hd.
      destruct (dt_ltb (replace_tzinfo d None) st).
      * unfold ret. cbn [app map scrape_hits flat_map].
        now rewrite !app_nil_r.
      * rewrite IH. now rewrite <- app_assoc.
    + unfold below. rewrite Hd. rewrite IH.
      unfold scrape_hit. rewrite Hd. reflexivity.
    + cbn [below]. rewrite IH. reflexivity.
  - simpl. unfold raise. now rewrite app_nil_r.
Qed.

(** When nothing in [pre] is below the window start, the loop goes through
    all of [pre]. *)
Lemma consumed_yields st pre tail :
  (forall x, In x pre -> below st x = false) ->
  consumed st (yields pre tail) = pre ++ consumed st tail.
Proof.
  induction pre as [|x pre IH]; intros H; [reflexivity|].
  cbn [yields consumed app]. rewrite (H x (or_introl eq_refl)).
  rewrite IH; [reflexivity|]. intros y Hy. apply H. now right.
Qed.

Lemma scrape_finish_yields st pre tail :
  (forall x, In x pre -> below st x = false) ->
  scrape_finish st (yields pre tail) = scrape_finish st tail.
Proof.
  induction pre as [|x pre IH]; intros H; [reflexivity|].
  cbn [yields scrape_finish]. rewrite (H x (or_introl eq_refl)).
  apply IH. intros y Hy. apply H. now right.
Qed.

(** ** The scan over the dialogs *)

Lemma search_dialogs_spec c query ds : forall results,
  (forall d, In d ds -> tolerated c query d = true) ->
  search_dialogs c query ds results
  = (Ok tt, results ++ flat_map (dialog_hits c query) ds,
     flat_map (dialog_trace c query) ds).
Proof.
  induction ds as [|d ds IH]; intros results H.
  - simpl. unfold ret. now rewrite app_nil_r.
  - cbn [search_dialogs flat_map].
    assert (Hd := H d (or_introl eq_refl)). unfold tolerated in Hd.
    unfold bind at 1, try_except, bind at 1. cbn [emit].
    rewrite search_messages_spec. fold (dialog_stream c query d).
    fold (dialog_title d).
    destruct (finish (dialog_stream c query d)) as [[]|e].
    + rewrite IH by (intros; apply H; now right).
      unfold dialog_hits, dialog_trace. cbn [app].
      now rewrite <- app_assoc.
    + rewrite Hd. unfold ret. rewrite IH by (intros; apply H; now right).
      unfold dialog_hits, dialog_trace. cbn [app].
      now rewrite <- app_assoc, app_nil_r.
Qed.

(** Whatever the streams do, the scan only adds to [results], and adds at
    most one record per item delivered during the scan. *)
Lemma search_dialogs_grows c query ds : forall results o results' tr,
  search_dialogs c query ds results = (o, results', tr) ->
  exists extra,
    results' = results ++ extra
    /\ (length extra <= length (delivered_of tr))%nat.
Proof.
  induction ds as [|d ds IH]; intros results o results' tr.
  - cbn. unfold ret. intros H. injection H as <- <- <-.
    exists []. now rewrite app_nil_r.
  - cbn [search_dialogs].
    unfold bind at 1, try_except, bind at 1. cbn [emit].
    rewrite search_messages_spec.
    set (s := tc_iter_messages c (entity d) (Some query) (Some 100)).
    set (hits := search_hits (d_id d) _ (delivered s)).
    assert (Hh : (length hits <= length (delivered s))%nat)
      by apply search_hits_length.
    assert (Hgo : forall t0,
      (let (p, t2) := search_dialogs c query ds (results ++ hits) in
       let (o0, s2) := p in
       (o0, s2, (EvIterMessages (entity d) (Some query) (Some 100)
                 :: map EvNext (delivered s) ++ t0) ++ t2))
      = (o, results', tr) ->
      exists extra, results' = results ++ extra
        /\ (length extra <= length (delivered_of tr))%nat).
    { intros t0.
      destruct (search_dialogs c query ds (results ++ hits))
        as [[o1 r1] t1] eqn:E.
      intros H. injection H as <- <- <-.
      destruct (IH _ _ _ _ E) as (extra & -> & Hlen).
      exists (hits ++ extra). split; [now rewrite app_assoc|].
      cbn [app].
      change (delivered_of (EvIterMessages ?a ?b ?c0 :: ?l))
        with (delivered_of l).
      rewrite !delivered_of_app, delivered_of_next, !length_app. lia. }
    destruct (finish s) as [[]|e].
    + cbn [app]. intros H. apply (Hgo []). now rewrite app_nil_r.
    + destruct (is_Exception e).
      * unfold ret. cbn [app]. intros H. apply (Hgo []). exact H.
      * intros H. injection H as <- <- <-.
        exists hits. split; [reflexivity|].
        change (delivered_of (EvIterMessages ?a ?b ?c0 :: ?l))
          with (delivered_of l).
        cbn [app]. now rewrite delivered_of_next.
Qed.

Lemma search_global_scan self c query chat_id all :
  client self = Some c ->
  tc_get_dialogs c = Ok all ->
  scanned chat_id all <> [] \/ truthy_int chat_id = false ->
  (forall d, In d (scanned chat_id all) -> tolerated c query d = true) ->
  search_global query chat_id self
  = (Ok (search_envelope query
           (flat_map (dialog_hits c query) (scanned chat_id all))),
     self,
     EvGetDialogs :: flat_map (dialog_trace c query) (scanned chat_id all)).
Proof.
  intros Hc Hall Hne Htol.
  unfold search_global, self_client.
  unfold bind at 1, bind at 1, get_state. rewrite Hc. cbn [ret app].
  unfold scanned in *. unfold truthy_int in Hne.
  assert (Hrun : forall ds,
    (forall d, In d ds -> tolerated c query d = true) ->
    (r <- with_local [] (search_dialogs c query ds) ;;
     ret (search_envelope query (snd r))) self
    = (Ok (search_envelope query (flat_map (dialog_hits c query) ds)), self,
       flat_map (dialog_trace c query) ds)).
  { intros ds Hds. unfold bind, with_local.
    rewrite (search_dialogs_spec c query ds [] Hds).
    cbn [ret snd app]. now rewrite app_nil_r. }
  destruct chat_id as [cid|]; [destruct (negb (cid =? 0)) eqn:Hz|].
  - unfold bind at 1, bind at 1, call, bind at 1. cbn [emit].
    rewrite Hall. cbn [ret app].
    destruct (filter (fun d => d_id d =? cid) all) as [|d ds] eqn:Hf.
    + destruct Hne as [Hne|Hne]; [now elim Hne | discriminate].
    + cbn [ret app]. rewrite (Hrun (d :: ds) Htol). reflexivity.
  - unfold bind at 1, bind at 1, call, bind at 1. cbn [emit].
    rewrite Hall. cbn [ret app]. rewrite (Hrun all Htol). reflexivity.
  - unfold bind at 1, bind at 1, call, bind at 1. cbn [emit].
    rewrite Hall. cbn [ret app]. rewrite (Hrun all Htol). reflexivity.
Qed.

Lemma search_global_envelope query chat_id self envelope self' tr :
  search_global query chat_id self = (Ok envelope, self', tr) ->
  field "error" envelope = None ->
  exists results,
    envelope = search_envelope query results
    /\ (length results <= length (delivered_of tr))%nat.
Proof.
  unfold search_global. intros Hrun Herr.
  apply bind_Ok in Hrun as (c & s1 & t1 & t2 & Hc & Hrun & ->).
  apply self_client_Ok in Hc as (_ & -> & ->).
  apply bind_Ok in Hrun as (selected & s2 & t3 & t4 & Hsel & Hrun & ->).
  assert (Hscan : forall ds,
    (r <- with_local [] (search_dialogs c query ds) ;;
     ret (search_envelope query (snd r))) s2 = (Ok envelope, self', t4) ->
    exists results,
      envelope = search_envelope query results
      /\ (length results <= length (delivered_of t4))%nat).
  { intros ds. unfold bind, with_local.
    destruct (search_dialogs c query ds []) as [[[[]|e] results] t] eqn:E;
      [|discriminate].
    cbn [ret snd app]. intros H. injection H as <- _ <-.
    destruct (search_dialogs_grows _ _ _ _ _ _ _ E) as (extra & -> & Hlen).
    exists extra. split; [reflexivity|].
    rewrite app_nil_r. exact Hlen. }
  assert (Hgo : forall ds,
    selected = inr ds ->
    exists results,
      envelope = search_envelope query results
      /\ (length results <= length (delivered_of ([] ++ t3 ++ t4)))%nat).
  { intros ds ->. destruct (Hscan ds Hrun) as (results & -> & Hlen).
    exists results. split; [reflexivity|].
    cbn [app]. rewrite delivered_of_app, length_app. lia. }
  destruct chat_id as [cid|]; [destruct (negb (cid =? 0))|];
    apply bind_Ok in Hsel as (all & s3 & t5 & t6 & _ & Hsel & _).
  - destruct (filter (fun d => d_id d =? cid) all) as [|d ds].
    + injection Hsel as <- _ _. injection Hrun as <- _ _. discriminate.
    + injection Hsel as <- _ _. now apply (Hgo (d :: ds)).
  - injection Hsel as <- _ _. now apply (Hgo all).
  - injection Hsel as <- _ _. now apply (Hgo all).
Qed.

(** ** The scrape as a whole *)

Lemma scrape_saved_messages_spec self c me target_date date_obj :
  client self = Some c ->
  tc_get_me c = Ok me ->
  strptime_ymd target_date = Some date_obj ->
  scrape_saved_messages target_date self
  = (match scrape_finish (start_of_day date_obj) (saved_stream c me) with
     | Ok _ =>
         Ok (scrape_envelope target_date
               (scrape_hits (start_of_day date_obj) (end_of_day date_obj)
                  (consumed (start_of_day date_obj) (saved_stream c me))))
     | Raised (Exception _ msg) => Ok (scrape_failed_envelope msg)
     | Raised e => Raised e
     end,
     self,
     EvGetMe :: EvIterMessages (PeerId (u_id me)) None None
       :: map EvNext (consumed (start_of_day date_obj) (saved_stream c me))).
Proof.
  intros Hc Hme Hdate.
  unfold scrape_saved_messages. rewrite Hdate.
  unfold self_client, bind at 1, bind at 1, get_state. rewrite Hc.
  cbn [ret app].
  unfold bind at 1, call, bind at 1. cbn [emit]. rewrite Hme. cbn [ret app].
  unfold bind at 1, with_local, try_except, bind at 1. cbn [emit].
  unfold bind at 1. rewrite scrape_messages_spec.
  fold (saved_stream c me).
  destruct (scrape_finish (start_of_day date_obj) (saved_stream c me))
    as [[]|e].
  - cbn [ret app]. now rewrite !app_nil_r.
  - destruct e; cbn [ret app]; now rewrite ?app_nil_r.
Qed.

(** A scrape that succeeds returns the hits of what it took from the
    stream. *)
Lemma scrape_success_envelope self target_date date_obj envelope self' tr :
  strptime_ymd target_date = Some date_obj ->
  scrape_saved_messages target_date self = (Ok envelope, self', tr) ->
  field "error" envelope = None ->
  envelope
  = scrape_envelope target_date
      (scrape_hits (start_of_day date_obj) (end_of_day date_obj)
         (delivered_of tr)).
Proof.
  intros Hdate Hrun Herr.
  destruct (client self) as [c|] eqn:Hc.
  - destruct (tc_get_me c) as [me|e] eqn:Hme.
    + rewrite (scrape_saved_messages_spec self c me target_date date_obj
                 Hc Hme Hdate) in Hrun.
      injection Hrun as Ho _ Htr. subst tr.
      cbn [delivered_of flat_map app].
      change (flat_map _ (map EvNext ?l)) with (delivered_of (map EvNext l)).
      rewrite delivered_of_next.
      destruct (scrape_finish _ _) as [[]|e].
      * now injection Ho as <-.
      * destruct e; try discriminate. injection Ho as <-. discriminate.
    + exfalso. revert Hrun. unfold scrape_saved_messages. rewrite Hdate.
      unfold self_client, bind at 1, bind at 1, get_state. rewrite Hc.
      cbn [ret app]. unfold bind at 1, call, bind at 1. cbn [emit].
      rewrite Hme. discriminate.
  - exfalso. revert Hrun. unfold scrape_saved_messages. rewrite Hdate.
    unfold self_client, bind at 1, bind at 1, get_state. rewrite Hc.
    discriminate.
Qed.

Lemma scrape_saved_messages_envelope target_date self envelope self' tr :
  scrape_saved_messages target_date self = (Ok envelope, self', tr) ->
  field "error" envelope = None ->
  exists results,
    envelope = scrape_envelope target_date results
    /\ (length results <= length (delivered_of tr))%nat.
Proof.
  intros Hrun Herr.
  destruct (strptime_ymd target_date) as [date_obj|] eqn:Hdate.
  - eexists. split.
    + exact (scrape_success_envelope self target_date date_obj envelope
               self' tr Hdate Hrun Herr).
    + apply scrape_hits_length.
  - unfold scrape_saved_messages in Hrun. rewrite Hdate in Hrun.
    injection Hrun as <- _ _. discriminate.
Qed.

(** ** Computations that do not disconnect, or do not touch the state *)

Lemma disconnects_app t1 t2 :
  disconnects (t1 ++ t2) = (disconnects t1 + disconnects t2)%nat.
Proof. unfold disconnects. now rewrite filter_app, length_app. Qed.

Lemma disconnects_next items : disconnects (map EvNext items) = 0%nat.
Proof. induction items as [|x items IH]; [reflexivity | exact IH]. Qed.

Section Combinators.

Context {S A B : Type}.

Lemma quiet_ret (a : A) : quiet (ret (S := S) a).
Proof. intros s. reflexivity. Qed.

Lemma quiet_raise e : quiet (raise (S := S) (A := A) e).
Proof. intros s. reflexivity. Qed.

Lemma quiet_get_state : quiet (get_state (S := S)).
Proof. intros s. reflexivity. Qed.

Lemma quiet_put_state s' : quiet (put_state (S := S) s').
Proof. intros s. reflexivity. Qed.

Lemma quiet_emit ev : is_disconnect ev = false -> quiet (emit (S := S) ev).
Proof. intros H s. unfold disconnects. cbn. now rewrite H. Qed.

Lemma quiet_bind (m : M S A) (f : A -> M S B) :
  quiet m -> (forall a, quiet (f a)) -> quiet (bind m f).
Proof.
  intros Hm Hf s. unfold bind. specialize (Hm s).
  destruct (m s) as [[[a|e] s1] t1]; [|exact Hm].
  specialize (Hf a s1). destruct (f a s1) as [[o s2] t2].
  cbn [snd] in *. rewrite disconnects_app. lia.
Qed.

Lemma quiet_try_except (body : M S A) handler :
  quiet body ->
  (forall e h, handler e = Some h -> quiet h) ->
  quiet (try_except body handler).
Proof.
  intros Hb Hh s. unfold try_except. specialize (Hb s).
  destruct (body s) as [[[a|e] s1] t1]; [exact Hb|].
  destruct (handler e) as [h|] eqn:E; [|exact Hb].
  specialize (Hh e h E s1). destruct (h s1) as [[o s2] t2].
  cbn [snd] in *. rewrite disconnects_app. lia.
Qed.

Lemma stateless_ret (a : A) : stateless (ret (S := S) a).
Proof. intros s. reflexivity. Qed.

Lemma stateless_raise e : stateless (raise (S := S) (A := A) e).
Proof. intros s. reflexivity. Qed.

Lemma stateless_get_state : stateless (get_state (S := S)).
Proof. intros s. reflexivity. Qed.

Lemma stateless_emit ev : stateless (emit (S := S) ev).
Proof. intros s. reflexivity. Qed.

Lemma stateless_bind (m : M S A) (f : A -> M S B) :
  stateless m -> (forall a, stateless (f a)) -> stateless (bind m f).
Proof.
  intros Hm Hf s. unfold bind. specialize (Hm s).
  destruct (m s) as [[[a|e] s1] t1]; cbn [fst snd] in Hm; subst s1;
    [|reflexivity].
  specialize (Hf a s). now destruct (f a s) as [[o s2] t2].
Qed.

Lemma quiet_with_local {L} (init : L) (body : M L A) :
  quiet body -> quiet (with_local (S := S) init body).
Proof.
  intros Hb s. unfold with_local. specialize (Hb init).
  now destruct (body init) as [[[a|e] l] t].
Qed.

Lemma stateless_with_local {L} (init : L) (body : M L A) :
  stateless (with_local (S := S) init body).
Proof.
  intros s. unfold with_local. now destruct (body init) as [[[a|e] l] t].
Qed.

End Combinators.

Lemma quiet_call {S A} ev (r : outcome A) :
  is_disconnect ev = false -> quiet (call (S := S) ev r).
Proof.
  intros H. unfold call. apply quiet_bind; [now apply quiet_emit|].
  intros _. destruct r; [apply quiet_ret | apply quiet_raise].
Qed.

Lemma stateless_call {S A} ev (r : outcome A) : stateless (call (S := S) ev r).
Proof.
  unfold call. apply stateless_bind; [apply stateless_emit|].
  intros _. destruct r; [apply stateless_ret | apply stateless_raise].
Qed.

Lemma quiet_append r : quiet (append r).
Proof. intros s. reflexivity. Qed.

Create HintDb tame.
#[local] Hint Resolve quiet_ret quiet_raise quiet_get_state quiet_put_state
  quiet_with_local quiet_append stateless_ret stateless_raise
  stateless_get_state stateless_emit stateless_with_local stateless_call
  : tame.
#[local] Hint Extern 1 (quiet (emit _)) =>
  apply quiet_emit; reflexivity : tame.
#[local] Hint Extern 1 (quiet (call _ _)) =>
  apply quiet_call; reflexivity : tame.
#[local] Hint Extern 1 (quiet (print _)) =>
  apply quiet_emit; reflexivity : tame.
#[local] Hint Extern 1 (quiet (print_json _)) =>
  apply quiet_emit; reflexivity : tame.
#[local] Hint Extern 1 (stateless (print _)) => apply stateless_emit : tame.
#[local] Hint Extern 1 (stateless (print_json _)) =>
  apply stateless_emit : tame.

(** Goes through a computation written with [bind], case by case. *)
Ltac tame :=
  repeat first
    [ apply quiet_bind; [|intros ?]
    | apply stateless_bind; [|intros ?]
    | match goal with
      | |- quiet (match ?x with _ => _ end) => destruct x
      | |- stateless (match ?x with _ => _ end) => destruct x
      | |- quiet (if ?x then _ else _) => destruct x
      | |- stateless (if ?x then _ else _) => destruct x
      end
    | solve [auto with tame] ].

Lemma quiet_search_messages cid ttl s : quiet (search_messages cid ttl s).
Proof.
  intros results. rewrite search_messages_spec. apply disconnects_next.
Qed.

Lemma quiet_scrape_messages st en s : quiet (scrape_messages st en s).
Proof.
  intros results. rewrite scrape_messages_spec. apply disconnects_next.
Qed.

Lemma quiet_search_dialogs c query ds : quiet (search_dialogs c query ds).
Proof.
  induction ds as [|d ds IH]; cbn [search_dialogs]; [apply quiet_ret|].
  apply quiet_bind; [|intros _; exact IH].
  apply quiet_try_except.
  - apply quiet_bind; [apply quiet_emit; reflexivity|].
    intros _. apply quiet_search_messages.
  - intros e h. destruct (is_Exception e); [|discriminate].
    intros H. injection H as <-. apply quiet_ret.
Qed.

#[local] Hint Resolve quiet_search_messages quiet_scrape_messages
  quiet_search_dialogs : tame.

Lemma quiet_self_client attr : quiet (self_client attr).
Proof. unfold self_client. tame. Qed.

Lemma stateless_self_client attr : stateless (self_client attr).
Proof. unfold self_client. tame. Qed.

#[local] Hint Resolve quiet_self_client stateless_self_client : tame.

Lemma quiet_search_global query chat_id : quiet (search_global query chat_id).
Proof. unfold search_global. tame. Qed.

Lemma stateless_search_global query chat_id :
  stateless (search_global query chat_id).
Proof. unfold search_global. tame. Qed.

Lemma quiet_scrape_saved_messages target_date :
  quiet (scrape_saved_messages target_date).
Proof.
  unfold scrape_saved_messages. tame.
  apply quiet_with_local, quiet_try_except.
  - tame.
  - intros e h. destruct e; try discriminate.
    intros H. injection H as <-. apply quiet_ret.
Qed.

Lemma stateless_scrape_saved_messages target_date :
  stateless (scrape_saved_messages target_date).
Proof. unfold scrape_saved_messages. tame. Qed.

Lemma quiet_get_me : quiet get_me.
Proof. unfold get_me. tame. Qed.

Lemma stateless_get_me : stateless get_me.
Proof. unfold get_me. tame. Qed.

#[local] Hint Resolve quiet_search_global stateless_search_global
  quiet_scrape_saved_messages stateless_scrape_saved_messages
  quiet_get_me stateless_get_me : tame.

Lemma quiet_connect w : quiet (connect w).
Proof. unfold connect. tame. Qed.

(** After [connect], [self.client] is set exactly when the construction of
    the external client returned. *)
Lemma connect_client w self o self' tr :
  client self = None ->
  connect w self = (o, self', tr) ->
  client self'
  = match new_TelegramClient w (session_name self) (api_id self)
            (api_hash self) with
    | Ok c => Some c
    | Raised _ => None
    end.
Proof.
  intros Hnone. unfold connect.
  unfold bind at 1, get_state. unfold bind at 1, call, bind at 1.
  cbn [emit].
  destruct (new_TelegramClient w (session_name self) (api_id self)
              (api_hash self)) as [c|e].
  - cbn [ret app]. unfold bind at 1, put_state.
    match goal with
    | |- context [?rest (mk_TelegramSearchClient ?a ?b ?c0 ?d)] =>
        assert (Hst : stateless rest)
    end.
    { destruct (negb _); unfold print; tame. }
    match goal with
    | |- context [(if ?b then ?x else ?y) ?s] =>
        pose proof (Hst s) as H; destruct ((if b then x else y) s)
          as [[o2 s2] t2]
    end.
    cbn [fst snd] in H. subst s2. intros E. now injection E as _ <- _.
  - cbn [raise]. intros E. now injection E as _ <- _.
Qed.

Lemma quiet_dispatch w args : quiet (dispatch w args).
Proof.
  unfold dispatch. apply quiet_bind; [apply quiet_connect|]. intros _. tame.
Qed.

Lemma dispatch_client w args self o self' tr :
  client self = None ->
  dispatch w args self = (o, self', tr) ->
  client self'
  = match new_TelegramClient w (session_name self) (api_id self)
            (api_hash self) with
    | Ok c => Some c
    | Raised _ => None
    end.
Proof.
  intros Hnone. unfold dispatch, bind at 1.
  destruct (connect w self) as [[[[]|e] s1] t1] eqn:E.
  - pose proof (connect_client _ _ _ _ _ Hnone E) as Hc.
    match goal with
    | |- context [?rest s1] => assert (Hst : stateless rest) by tame;
        pose proof (Hst s1) as H; destruct (rest s1) as [[o2 s2] t2]
    end.
    cbn [fst snd] in H. subst s2. intros R. now injection R as _ <- _.
  - intros R. injection R as _ <- _.
    exact (connect_client _ _ _ _ _ Hnone E).
Qed.

Lemma quiet_main_except e h : main_except e = Some h -> quiet h.
Proof.
  destruct e; cbn [main_except]; try discriminate;
    intros H; injection H as <-; unfold sys_exit; tame.
Qed.

Lemma stateless_main_except e h : main_except e = Some h -> stateless h.
Proof.
  destruct e; cbn [main_except]; try discriminate;
    intros H; injection H as <-; unfold sys_exit; tame.
Qed.

(** The [try ... except ... finally] of [main], entered with
    [self.client = None]. *)
Lemma guarded_dispatch w args self :
  client self = None ->
  match new_TelegramClient w (session_name self) (api_id self)
          (api_hash self) with
  | Ok _ =>
      exists before,
        snd (try_finally (try_except (dispatch w args) main_except)
                         disconnect self)
        = before ++ [EvDisconnect]
        /\ disconnects before = 0%nat
  | Raised _ =>
      disconnects
        (snd (try_finally (try_except (dispatch w args) main_except)
                          disconnect self)) = 0%nat
  end.
Proof.
  intros Hnone.
  assert (Hbody : exists o s1 t1,
    try_except (dispatch w args) main_except self = (o, s1, t1)
    /\ disconnects t1 = 0%nat
    /\ client s1
       = match new_TelegramClient w (session_name self) (api_id self)
                 (api_hash self) with
         | Ok c => Some c
         | Raised _ => None
         end).
  { unfold try_except.
    pose proof (quiet_dispatch w args self) as Hq.
    destruct (dispatch w args self) as [[o s1] t1] eqn:E.
    pose proof (dispatch_client _ _ _ _ _ _ Hnone E) as Hc.
    cbn [snd] in Hq.
    destruct o as [a|e]; [now exists (Ok a), s1, t1|].
    destruct (main_except e) as [h|] eqn:Eh; [|now exists (Raised e), s1, t1].
    pose proof (quiet_main_except e h Eh s1) as Hq2.
    pose proof (stateless_main_except e h Eh s1) as Hs2.
    destruct (h s1) as [[o2 s2] t2]. cbn [fst snd] in *. subst s2.
    exists o2, s1, (t1 ++ t2). rewrite disconnects_app. repeat split; [lia|].
    exact Hc. }
  destruct Hbody as (o & s1 & t1 & Hrun & Hq & Hc).
  unfold try_finally. rewrite Hrun.
  unfold disconnect, bind, get_state. cbn [ret app].
  destruct (new_TelegramClient w (session_name self) (api_id self)
              (api_hash self)) as [c|e]; rewrite Hc.
  - unfold call, bind, emit.
    destruct (tc_disconnect c) as [[]|e]; cbn; now exists t1.
  - cbn. rewrite ?app_nil_r. exact Hq.
Qed.

(** * The claims of the specification *)

(** ** Date-window scraper *)

(** C1: the scrape loop stops at the first message whose timezone-stripped
    timestamp is strictly below the window start.  With [pre] the items
    before it (none of them below the start) and [post] whatever the stream
    would deliver after it, the call returns the records of [pre] alone,
    and its trace ends with the delivery of that message: nothing of
    [post] is taken.  That message is not emitted, and a message above the
    window end is not emitted either, while the loop goes on through all
    of [pre]. *)
Theorem C1_scrape_stops_below_window
  self c me target_date date_obj pre m d post :
  client self = Some c ->
  tc_get_me c = Ok me ->
  strptime_ymd target_date = Some date_obj ->
  saved_stream c me = yields pre (SYield (Some m) post) ->
  (forall x, In x pre -> below (start_of_day date_obj) x = false) ->
  date m = Some d ->
  dt_ltb (replace_tzinfo d None) (start_of_day date_obj) = true ->
  scrape_saved_messages target_date self
  = (Ok (scrape_envelope target_date
           (scrape_hits (start_of_day date_obj) (end_of_day date_obj) pre)),
     self,
     EvGetMe :: EvIterMessages (PeerId (u_id me)) None None
       :: map EvNext (pre ++ [Some m]))
  /\ scrape_hit (start_of_day date_obj) (end_of_day date_obj) (Some m) = []
  /\ (forall x dx,
        date x = Some dx ->
        dt_ltb (end_of_day date_obj) (replace_tzinfo dx None) = true ->
        scrape_hit (start_of_day date_obj) (end_of_day date_obj) (Some x) = []
        /\ below (start_of_day date_obj) (Some x) = false).
Proof.
  intros Hc Hme Hdate Hs Hpre Hd Hlt.
  assert (Hm : scrape_hit (start_of_day date_obj) (end_of_day date_obj)
                 (Some m) = []).
  { unfold scrape_hit. rewrite Hd.
    now rewrite (below_not_in_window _ _ _ Hlt). }
  assert (Hb : below (start_of_day date_obj) (Some m) = true).
  { unfold below. now rewrite Hd. }
  split; [|split; [exact Hm|]].
  - rewrite (scrape_saved_messages_spec self c me target_date date_obj
               Hc Hme Hdate).
    rewrite Hs, (scrape_finish_yields _ _ _ Hpre), (consumed_yields _ _ _ Hpre).
    cbn [scrape_finish consumed]. rewrite Hb.
    rewrite scrape_hits_app. unfold scrape_hits at 2. cbn [flat_map].
    rewrite Hm. now rewrite !app_nil_r.
  - intros x dx Hx Hgt. split.
    + unfold scrape_hit. rewrite Hx.
      now rewrite (above_not_in_window _ _ _ Hgt).
    + unfold below. rewrite Hx.
      destruct (dt_ltb (replace_tzinfo dx None) (start_of_day date_obj)) eqn:E;
        [|reflexivity].
      pose proof (dt_ltb_trans _ _ _ Hgt E) as Hlt'.
      pose proof (dt_ltb_not_leb _ _ Hlt') as Hno.
      now rewrite start_leb_end in Hno.
Qed.


(** C3: when the iteration over Saved Messages raises an exception, the call
    returns the error envelope whose error string ends with the
    exception's message and whose results are empty, whatever had been
    collected from the items [pre] delivered before the exception. *)
Theorem C3_scrape_exception_discards
  self c me target_date date_obj pre cls msg :
  client self = Some c ->
  tc_get_me c = Ok me ->
  strptime_ymd target_date = Some date_obj ->
  saved_stream c me = yields pre (SRaise (Exception cls msg)) ->
  (forall x, In x pre -> below (start_of_day date_obj) x = false) ->
  scrape_saved_messages target_date self
  = (Ok (scrape_failed_envelope msg), self,
     EvGetMe :: EvIterMessages (PeerId (u_id me)) None None
       :: map EvNext pre)
  /\ field "error" (scrape_failed_envelope msg)
     = Some (VStr ("Failed to scrape Saved Messages: " ++ msg))
  /\ field "results" (scrape_failed_envelope msg) = Some (VList [])
  /\ field "total" (scrape_failed_envelope msg) = None.
Proof.
  intros Hc Hme Hdate Hs Hpre.
  split; [|repeat split].
  rewrite (scrape_saved_messages_spec self c me target_date date_obj
             Hc Hme Hdate).
  rewrite Hs, (scrape_finish_yields _ _ _ Hpre), (consumed_yields _ _ _ Hpre).
  cbn [scrape_finish consumed]. now rewrite app_nil_r.
Qed.

(** C8, as the code has it: for every date string that
    [strptime(..., "%Y-%m-%d")] rejects, the call returns exactly the
    envelope [{error: "Invalid date format. Use YYYY-MM-DD", results: []}],
    whatever the state of the client, with no call into the external
    client and no iteration before it.  Such a string is never a date
    written strictly as YYYY-MM-DD.  This holds for every table of
    decimal digits that has the ASCII digits in it. *)
Theorem C8_rejected_date_envelope self target_date :
  strptime_ymd target_date = None ->
  scrape_saved_messages target_date self
  = (Ok invalid_date_envelope, self, [])
  /\ invalid_date_envelope
     = VDict [("error", VStr "Invalid date format. Use YYYY-MM-DD");
              ("results", VList [])]
  /\ spec_strict_YYYY_MM_DD target_date = false.
Proof.
  intros H. unfold scrape_saved_messages. rewrite H.
  split; [reflexivity|split; [reflexivity|]].
  destruct (spec_strict_YYYY_MM_DD target_date) eqn:E; [|reflexivity].
  now elim (strict_date_accepted target_date E).
Qed.

(** ** Search orchestrator *)

(** C4, as the code has it: when every per-conversation search ends
    normally or with an exception, the call returns a success envelope
    whose results are, in listing order, the records of every message
    that each conversation's search delivered, those delivered by a
    search before it failed included; every conversation is searched, so
    a failure never aborts the scan.  When each failing search fails
    before it delivers a message with text, the results are exactly the
    records of the conversations that did not fail. *)
Theorem C4_search_skips_failures self c query chat_id all :
  client self = Some c ->
  tc_get_dialogs c = Ok all ->
  scanned chat_id all <> [] \/ truthy_int chat_id = false ->
  (forall d, In d (scanned chat_id all) -> tolerated c query d = true) ->
  search_global query chat_id self
  = (Ok (search_envelope query
           (flat_map (dialog_hits c query) (scanned chat_id all))),
     self,
     EvGetDialogs :: flat_map (dialog_trace c query) (scanned chat_id all))
  /\ ((forall d, In d (scanned chat_id all) ->
         fails c query d = true -> dialog_hits c query d = []) ->
      flat_map (dialog_hits c query) (scanned chat_id all)
      = flat_map (dialog_hits c query)
          (filter (fun d => negb (fails c query d)) (scanned chat_id all))).
Proof.
  intros Hc Hall Hne Htol. split.
  - now apply search_global_scan.
  - clear. induction (scanned chat_id all) as [|d ds IH]; intros H;
      [reflexivity|].
    cbn [flat_map filter].
    rewrite IH by (intros; apply H; [now right | assumption]).
    destruct (fails c query d) eqn:Hf; cbn [negb flat_map]; [|reflexivity].
    now rewrite (H d (or_introl eq_refl) Hf).
Qed.

(** C5, as the code has it: for a target id other than 0 that no listed
    conversation has, the call returns exactly
    [{error: "Chat ID <id> not found", results: []}]; its only call into
    the external client is the listing, so no per-conversation search is
    made. *)
Theorem C5_unknown_chat_id self c query cid all :
  client self = Some c ->
  tc_get_dialogs c = Ok all ->
  cid <> 0 ->
  (forall d, In d all -> d_id d <> cid) ->
  search_global query (Some cid) self
  = (Ok (not_found_envelope cid), self, [EvGetDialogs])
  /\ not_found_envelope cid
     = VDict [("error", VStr ("Chat ID " ++ str_of_Z cid ++ " not found"));
              ("results", VList [])].
Proof.
  intros Hc Hall Hz Hnone. split; [|reflexivity].
  assert (Hf : filter (fun d => d_id d =? cid) all = []).
  { clear Hall. induction all as [|d ds IH]; [reflexivity|].
    cbn [filter].
    destruct (Z.eqb_spec (d_id d) cid) as [E|_].
    - now elim (Hnone d (or_introl eq_refl)).
    - apply IH. intros; apply Hnone; now right. }
  unfold search_global, self_client.
  unfold bind at 1, bind at 1, get_state. rewrite Hc. cbn [ret app].
  destruct (Z.eqb_spec cid 0) as [E|_]; [contradiction|]. cbn [negb].
  unfold bind at 1, bind at 1, call, bind at 1. cbn [emit].
  rewrite Hall. cbn [ret app]. rewrite Hf. reflexivity.
Qed.



(** ** Envelopes and runs *)

(** C6: in every successful envelope of a search or a scrape, [total] is
    the length of [results].  A call builds its results from nothing but
    the items delivered during that call (there are never more records
    than such items), it leaves the client object as it found it, and so
    a call made after it returns what it would have returned alone. *)
Theorem C6_total_is_length i self envelope self' tr :
  invoke i self = (Ok envelope, self', tr) ->
  field "error" envelope = None ->
  (exists results,
     field "results" envelope = Some (VList results)
     /\ field "total" envelope = Some (VInt (Z.of_nat (length results)))
     /\ (length results <= length (delivered_of tr))%nat)
  /\ self' = self
  /\ (forall j, invoke j self' = invoke j self).
Proof.
  intros Hrun Herr.
  assert (Hself : self' = self).
  { destruct i as [query chat_id|target_date]; cbn [invoke] in Hrun.
    - pose proof (stateless_search_global query chat_id self) as H.
      now rewrite Hrun in H.
    - pose proof (stateless_scrape_saved_messages target_date self) as H.
      now rewrite Hrun in H. }
  split; [|split; [exact Hself | now rewrite Hself]].
  destruct i as [query chat_id|target_date]; cbn [invoke] in Hrun.
  - destruct (search_global_envelope _ _ _ _ _ _ Hrun Herr)
      as (results & -> & Hlen).
    now exists results.
  - destruct (scrape_saved_messages_envelope _ _ _ _ _ Hrun Herr)
      as (results & -> & Hlen).
    now exists results.
Qed.

(** C9, as the code has it: a run calls the external client's [disconnect]
    exactly once, as the last thing it does, when it has constructed the
    external client, whichever way the run then ends: normal completion,
    a reported error envelope, an exception caught at the top level, a
    user interrupt, or an exception that no clause catches.  A run in
    which the construction of the external client raises, or which ends
    before it because the credentials do not resolve, never calls it. *)
Theorem C9_disconnect_once_when_constructed py_int w args :
  disconnects (snd (main py_int w args tt))
  = match construction py_int w args with
    | Some (Ok _) => 1%nat
    | _ => 0%nat
    end
  /\ match construction py_int w args with
     | Some (Ok _) =>
         exists before,
           snd (main py_int w args tt) = before ++ [EvDisconnect]
     | _ => True
     end.
Proof.
  unfold main, construction.
  destruct (resolve_api_id py_int w args) as [[|]|aid];
    destruct (truthy_str (resolve_api_hash w args));
    try (split; [reflexivity | exact I]).
  unfold bind, with_local.
  pose proof (guarded_dispatch w args
                (mk_TelegramSearchClient aid
                   (or_str (resolve_api_hash w args) "") "anon" None)
                eq_refl) as H.
  cbn [session_name api_id api_hash] in H.
  destruct (new_TelegramClient w "anon" aid
              (or_str (resolve_api_hash w args) "")) as [c|e].
  - destruct H as (before & Htr & Hq).
    destruct (try_finally _ _ _) as [[[a|e] s1] t1]; cbn [snd] in *;
      subst t1; cbn [ret snd]; rewrite ?app_nil_r;
      (split; [rewrite disconnects_app, Hq; reflexivity | now exists before]).
  - destruct (try_finally _ _ _) as [[[a|e'] s1] t1]; cbn [snd] in *;
      cbn [ret]; rewrite ?app_nil_r; now split.
Qed.
(** * Further properties of the code *)

(** ** The scrape on a stream that is newest first *)


Lemma stamp_below st x :
  below st x = match stamp x with Some d => dt_ltb d st | None => false end.
Proof.
  unfold below, stamp. destruct x as [m|]; [|reflexivity].
  now destruct (date m).
Qed.

Lemma stamp_hit st en x :
  stamp x = None \/ (exists d, stamp x = Some d /\ in_window st en d = false) ->
  scrape_hit st en x = [].
Proof.
  unfold stamp, scrape_hit. destruct x as [m|]; [|reflexivity].
  destruct (date m) as [d|]; [|reflexivity].
  intros [H|(d' & H & Hw)]; [discriminate|].
  injection H as <-. now rewrite Hw.
Qed.




(** ** The window is one calendar day *)

(** X2: for a timestamp with actual time-of-day fields, lying in the
    window of the scrape is having the year, month and day of the date
    that was asked for: the scrape emits a record for a dated message
    exactly when its timezone-stripped timestamp is on that day. *)
Theorem window_is_the_day date_obj m d :
  valid_time d ->
  date m = Some d ->
  (in_window (start_of_day date_obj) (end_of_day date_obj)
             (replace_tzinfo d None) = true
   <-> same_day d date_obj)
  /\ (same_day d date_obj ->
      scrape_hit (start_of_day date_obj) (end_of_day date_obj) (Some m)
      = [scrape_record m d])
  /\ (~ same_day d date_obj ->
      scrape_hit (start_of_day date_obj) (end_of_day date_obj) (Some m)
      = []).
Proof.
  intros (Hh & Hmi & Hs & Hus) Hd.
  assert (Hiff :
    in_window (start_of_day date_obj) (end_of_day date_obj)
              (replace_tzinfo d None) = true <-> same_day d date_obj).
  { unfold in_window, same_day, dt_leb, dt_cmp, start_of_day, end_of_day,
      replace_time, replace_tzinfo.
    cbn [year month day hour minute second microsecond].
    rewrite (Z.compare_antisym (year d) (year date_obj)),
            (Z.compare_antisym (month d) (month date_obj)),
            (Z.compare_antisym (day d) (day date_obj)).
    destruct (Z.compare_spec (year d) (year date_obj));
      cbn [CompOpp lex andb];
      try (split; [discriminate | intros (? & ? & ?); lia]).
    destruct (Z.compare_spec (month d) (month date_obj));
      cbn [CompOpp lex andb];
      try (split; [discriminate | intros (? & ? & ?); lia]).
    destruct (Z.compare_spec (day d) (day date_obj));
      cbn [CompOpp lex andb];
      try (split; [discriminate | intros (? & ? & ?); lia]).
    split; [now intros _|intros _].
    repeat
      match goal with
      | |- context [?x ?= ?y] => destruct (Z.compare_spec x y)
      end; cbn; try reflexivity; exfalso; lia. }
  split; [exact Hiff|].
  unfold scrape_hit. rewrite Hd. split; intros H.
  - now rewrite (proj2 Hiff H).
  - destruct (in_window _ _ _) eqn:E; [|reflexivity].
    now elim H; apply Hiff.
Qed.

(** ** Items without a date *)

Lemma dated_only_finish st s :
  scrape_finish st (dated_only s) = scrape_finish st s.
Proof.
  induction s as [|x rest IH|e]; try reflexivity.
  cbn [dated_only scrape_finish]. rewrite stamp_below.
  destruct (stamp x) as [d|] eqn:E; [|exact IH].
  cbn [scrape_finish]. rewrite stamp_below, E. now rewrite IH.
Qed.

Lemma dated_only_hits st en s :
  scrape_hits st en (consumed st (dated_only s))
  = scrape_hits st en (consumed st s).
Proof.
  induction s as [|x rest IH|e]; try reflexivity.
  cbn [dated_only consumed].
  unfold scrape_hits in *. cbn [flat_map]. rewrite stamp_below.
  destruct (stamp x) as [d|] eqn:E.
  - cbn [consumed flat_map]. rewrite stamp_below, E.
    destruct (dt_ltb d st); [reflexivity|]. now rewrite IH.
  - rewrite (stamp_hit st en x (or_introl E)). exact IH.
Qed.

(** X3: missing items and messages without a date neither add a record
    nor end the loop: on a stream with such items the loop ends the same
    way and leaves the same results as on the stream without them. *)
Theorem scrape_passes_over_dateless st en s results :
  fst (scrape_messages st en s results)
  = fst (scrape_messages st en (dated_only s) results).
Proof.
  rewrite !scrape_messages_spec. cbn [fst].
  now rewrite dated_only_finish, dated_only_hits.
Qed.

(** ** What the records of a search look like *)

(** Every record that the scan adds comes from one of the dialogs scanned
    and from a message with non-empty text. *)
Lemma search_dialogs_records c query ds : forall results o results' tr,
  search_dialogs c query ds results = (o, results', tr) ->
  exists extra,
    results' = results ++ extra
    /\ Forall (fun r => exists d m t,
                 In d ds /\ text m = Some t /\ t <> ""
                 /\ r = match_record (d_id d) (dialog_title d) m t) extra.
Proof.
  induction ds as [|d ds IH]; intros results o results' tr.
  - cbn. unfold ret. intros H. injection H as <- <- <-.
    exists []. now rewrite app_nil_r.
  - cbn [search_dialogs].
    unfold bind at 1, try_except, bind at 1. cbn [emit].
    rewrite search_messages_spec. fold (dialog_title d).
    set (s := tc_iter_messages c (entity d) (Some query) (Some 100)).
    set (hits := search_hits (d_id d) (dialog_title d) (delivered s)).
    assert (Hh : Forall (fun r => exists d' m t,
                   In d' (d :: ds) /\ text m = Some t /\ t <> ""
                   /\ r = match_record (d_id d') (dialog_title d') m t) hits).
    { subst hits. unfold search_hits. apply Forall_flat_map.
      apply Forall_forall. intros x _. unfold search_hit.
      destruct x as [m|]; [|constructor].
      destruct (text m) as [t|] eqn:Et; [|constructor].
      destruct (is_empty_spec t); cbn [negb]; constructor; [|constructor].
      exists d, m, t. repeat split; [now left | assumption..]. }
    assert (Hgo : forall t0,
      (let (p, t2) := search_dialogs c query ds (results ++ hits) in
       let (o0, s2) := p in
       (o0, s2, (EvIterMessages (entity d) (Some query) (Some 100)
                 :: map EvNext (delivered s) ++ t0) ++ t2))
      = (o, results', tr) ->
      exists extra, results' = results ++ extra
        /\ Forall (fun r => exists d' m t,
                     In d' (d :: ds) /\ text m = Some t /\ t <> ""
                     /\ r = match_record (d_id d') (dialog_title d') m t)
                  extra).
    { intros t0.
      destruct (search_dialogs c query ds (results ++ hits))
        as [[o1 r1] t1] eqn:E.
      intros H. injection H as <- <- <-.
      destruct (IH _ _ _ _ E) as (extra & -> & Hex).
      exists (hits ++ extra). split; [now rewrite app_assoc|].
      apply Forall_app. split; [exact Hh|].
      eapply Forall_impl; [|exact Hex].
      intros r (d' & m & t & Hin & Ht & Hne & ->).
      exists d', m, t. repeat split; [now right | assumption..]. }
    destruct (finish s) as [[]|e].
    + cbn [app]. intros H. apply (Hgo []). now rewrite app_nil_r.
    + destruct (is_Exception e).
      * unfold ret. cbn [app]. intros H. apply (Hgo []). exact H.
      * intros H. injection H as <- <- <-. now exists hits.
Qed.

Lemma search_global_records query chat_id self envelope self' tr :
  search_global query chat_id self = (Ok envelope, self', tr) ->
  field "error" envelope = None ->
  exists c all results,
    client self = Some c
    /\ tc_get_dialogs c = Ok all
    /\ envelope = search_envelope query results
    /\ Forall (fun r => exists d m t,
                 In d (scanned chat_id all) /\ text m = Some t /\ t <> ""
                 /\ r = match_record (d_id d) (dialog_title d) m t) results.
Proof.
  unfold search_global. intros Hrun Herr.
  apply bind_Ok in Hrun as (c & s1 & t1 & t2 & Hc & Hrun & ->).
  apply self_client_Ok in Hc as (Hc & -> & ->).
  apply bind_Ok in Hrun as (selected & s2 & t3 & t4 & Hsel & Hrun & ->).
  assert (Hscan : forall ds,
    (r <- with_local [] (search_dialogs c query ds) ;;
     ret (search_envelope query (snd r))) s2 = (Ok envelope, self', t4) ->
    exists results,
      envelope = search_envelope query results
      /\ Forall (fun r => exists d m t,
                   In d ds /\ text m = Some t /\ t <> ""
                   /\ r = match_record (d_id d) (dialog_title d) m t)
                results).
  { intros ds. unfold bind, with_local.
    destruct (search_dialogs c query ds []) as [[[[]|e] results] t] eqn:E;
      [|discriminate].
    cbn [ret snd app]. intros H. injection H as <- _ _.
    destruct (search_dialogs_records _ _ _ _ _ _ _ E) as (extra & -> & Hex).
    now exists extra. }
  unfold scanned.
  destruct chat_id as [cid|]; [destruct (negb (cid =? 0))|];
    apply bind_Ok in Hsel as (all & s3 & t5 & t6 & Hall & Hsel & _);
    apply call_Ok in Hall as (Hall & _ & _).
  - destruct (filter (fun d => d_id d =? cid) all) as [|d ds] eqn:Hf.
    + injection Hsel as <- _ _. injection Hrun as <- _ _. discriminate.
    + injection Hsel as <- _ _.
      destruct (Hscan _ Hrun) as (results & -> & Hres).
      exists c, all, results. rewrite ?Hf. repeat split; assumption.
  - injection Hsel as <- _ _.
    destruct (Hscan _ Hrun) as (results & -> & Hres).
    exists c, all, results. repeat split; assumption.
  - injection Hsel as <- _ _.
    destruct (Hscan _ Hrun) as (results & -> & Hres).
    exists c, all, results. repeat split; assumption.
Qed.

Lemma slice_to_nonempty n (t : str) : t <> "" -> slice_to (S n) t <> "".
Proof. destruct t; [easy | discriminate]. Qed.

Lemma dialog_title_nonempty d : dialog_title d <> "".
Proof.
  unfold dialog_title, or_str. destruct (title d) as [s|]; [|discriminate].
  destruct (is_empty_spec s); [discriminate | assumption].
Qed.

(** X4: in the envelope of a search that succeeds, every record has a
    text that is not empty and has at most 500 characters (code points),
    and a chat title that is not empty (the dialog's own, or
    ["Chat <id>"]). *)
Theorem search_records_well_formed query chat_id self envelope self' tr :
  search_global query chat_id self = (Ok envelope, self', tr) ->
  field "error" envelope = None ->
  exists results,
    field "results" envelope = Some (VList results)
    /\ Forall (fun r =>
                 exists t ttl,
                   field "text" r = Some (VStr t)
                   /\ t <> "" /\ (length t <= 500)%nat
                   /\ field "chat_title" r = Some (VStr ttl)
                   /\ ttl <> "") results.
Proof.
  intros Hrun Herr.
  destruct (search_global_records _ _ _ _ _ _ Hrun Herr)
    as (c & all & results & _ & _ & -> & Hres).
  exists results. split; [reflexivity|].
  eapply Forall_impl; [|exact Hres].
  intros r (d & m & t & _ & _ & Hne & ->).
  exists (slice_to 500 t), (dialog_title d). repeat split.
  - now apply slice_to_nonempty.
  - rewrite slice_to_length. apply Nat.le_min_l.
  - apply dialog_title_nonempty.
Qed.

(** X5: a search with a target id other than 0 searches only the dialogs
    with that id: every record of its envelope carries the target id as
    its [chat_id]. *)
Theorem targeted_search_stays_in_chat query cid self envelope self' tr :
  cid <> 0 ->
  search_global query (Some cid) self = (Ok envelope, self', tr) ->
  field "error" envelope = None ->
  exists results,
    field "results" envelope = Some (VList results)
    /\ Forall (fun r => field "chat_id" r = Some (VInt cid)) results.
Proof.
  intros Hz Hrun Herr.
  destruct (search_global_records _ _ _ _ _ _ Hrun Herr)
    as (c & all & results & _ & _ & -> & Hres).
  exists results. split; [reflexivity|].
  eapply Forall_impl; [|exact Hres].
  intros r (d & m & t & Hin & _ & _ & ->).
  unfold scanned in Hin.
  destruct (Z.eqb_spec cid 0) as [|_]; [contradiction|]. cbn [negb] in Hin.
  apply filter_In in Hin as [_ Hid]. apply Z.eqb_eq in Hid.
  cbn. now rewrite Hid.
Qed.

(** ** What the two calls do not swallow *)

Lemma search_dialogs_app c query pre : forall rest results,
  (forall d, In d pre -> tolerated c query d = true) ->
  search_dialogs c query (pre ++ rest) results
  = (let '(o, results', tr) :=
       search_dialogs c query rest
         (results ++ flat_map (dialog_hits c query) pre) in
     (o, results', flat_map (dialog_trace c query) pre ++ tr)).
Proof.
  induction pre as [|d pre IH]; intros rest results H.
  - cbn [app flat_map]. rewrite app_nil_r.
    now destruct (search_dialogs c query rest results) as [[o r] t].
  - cbn [app search_dialogs flat_map].
    assert (Hd := H d (or_introl eq_refl)). unfold tolerated in Hd.
    unfold bind at 1, try_except, bind at 1. cbn [emit].
    rewrite search_messages_spec. fold (dialog_stream c query d).
    fold (dialog_title d). fold (dialog_hits c query d).
    assert (Hgo :
      (let (p, t2) :=
         search_dialogs c query (pre ++ rest)
           (results ++ dialog_hits c query d) in
       let (o0, s2) := p in
       (o0, s2, (EvIterMessages (entity d) (Some query) (Some 100)
                 :: map EvNext (delivered (dialog_stream c query d)) ++ [])
                ++ t2))
      = (let '(o, results', tr) :=
           search_dialogs c query rest
             (results ++ dialog_hits c query d
                      ++ flat_map (dialog_hits c query) pre) in
         (o, results',
          (dialog_trace c query d ++ flat_map (dialog_trace c query) pre)
          ++ tr))).
    { rewrite IH by (intros; apply H; now right).
      rewrite <- app_assoc.
      destruct (search_dialogs c query rest _) as [[o r] t].
      unfold dialog_trace at 2. cbn [app].
      now rewrite app_nil_r, <- !app_assoc. }
    destruct (finish (dialog_stream c query d)) as [[]|e].
    + cbn [app]. rewrite <- Hgo. now rewrite app_nil_r.
    + rewrite Hd. unfold ret. cbn [app]. now rewrite <- Hgo.
Qed.

(** X6: an interrupt (anything that is not an [Exception]) raised by the
    search of one conversation is not skipped: it ends the scan there and
    leaves the call, the conversations listed after it are not searched,
    and no envelope is returned. *)
Theorem search_interrupt_propagates
  self c query chat_id all pre d post e :
  client self = Some c ->
  tc_get_dialogs c = Ok all ->
  scanned chat_id all = pre ++ d :: post ->
  (forall x, In x pre -> tolerated c query x = true) ->
  finish (dialog_stream c query d) = Raised e ->
  is_Exception e = false ->
  search_global query chat_id self
  = (Raised e, self,
     EvGetDialogs :: flat_map (dialog_trace c query) (pre ++ [d])).
Proof.
  intros Hc Hall Hsc Hpre Hfin He.
  assert (Hloop : forall results,
    search_dialogs c query (pre ++ d :: post) results
    = (Raised e,
       results ++ flat_map (dialog_hits c query) (pre ++ [d]),
       flat_map (dialog_trace c query) (pre ++ [d]))).
  { intros results. rewrite (search_dialogs_app c query pre _ _ Hpre).
    cbn [search_dialogs].
    unfold bind at 1, try_except, bind at 1. cbn [emit].
    rewrite search_messages_spec. fold (dialog_stream c query d).
    rewrite Hfin, He. rewrite !flat_map_app. cbn [flat_map].
    unfold dialog_hits at 2, dialog_trace at 2, dialog_title.
    cbn [app]. now rewrite !app_nil_r, <- app_assoc. }
  unfold search_global, self_client.
  unfold bind at 1, bind at 1, get_state. rewrite Hc. cbn [ret app].
  assert (Hrun :
    (r <- with_local [] (search_dialogs c query (pre ++ d :: post)) ;;
     ret (search_envelope query (snd r))) self
    = (Raised e, self, flat_map (dialog_trace c query) (pre ++ [d]))).
  { unfold bind, with_local. now rewrite Hloop. }
  unfold scanned in Hsc.
  destruct chat_id as [cid|]; [destruct (negb (cid =? 0))|];
    unfold bind at 1, bind at 1, call, bind at 1; cbn [emit];
    rewrite Hall; cbn [ret app].
  - rewrite Hsc.
    destruct (pre ++ d :: post) as [|d0 ds] eqn:E;
      [now destruct pre|].
    cbn [ret app]. now rewrite Hrun.
  - rewrite Hsc. now rewrite Hrun.
  - rewrite Hsc. now rewrite Hrun.
Qed.

(** X7: in a scrape, only an [Exception] of the iteration becomes an error
    envelope: an interrupt raised by the iteration leaves the call as it
    is, after the items delivered before it. *)
Theorem scrape_interrupt_propagates
  self c me target_date date_obj pre e :
  client self = Some c ->
  tc_get_me c = Ok me ->
  strptime_ymd target_date = Some date_obj ->
  saved_stream c me = yields pre (SRaise e) ->
  (forall x, In x pre -> below (start_of_day date_obj) x = false) ->
  is_Exception e = false ->
  scrape_saved_messages target_date self
  = (Raised e, self,
     EvGetMe :: EvIterMessages (PeerId (u_id me)) None None
       :: map EvNext pre).
Proof.
  intros Hc Hme Hdate Hs Hpre He.
  rewrite (scrape_saved_messages_spec self c me target_date date_obj
             Hc Hme Hdate).
  rewrite Hs, (scrape_finish_yields _ _ _ Hpre), (consumed_yields _ _ _ Hpre).
  cbn [scrape_finish consumed]. rewrite app_nil_r.
  now destruct e.
Qed.

(** X8: the identity lookup of a scrape is outside its [try]: when
    [get_me] raises, the scrape raises the same exception, whatever its
    class, instead of returning an error envelope, and the archive is not
    iterated. *)
Theorem scrape_identity_failure_propagates
  self c target_date date_obj e :
  client self = Some c ->
  strptime_ymd target_date = Some date_obj ->
  tc_get_me c = Raised e ->
  scrape_saved_messages target_date self = (Raised e, self, [EvGetMe]).
Proof.
  intros Hc Hdate Hme. unfold scrape_saved_messages. rewrite Hdate.
  unfold self_client, bind at 1, bind at 1, get_state. rewrite Hc.
  cbn [ret app]. unfold bind at 1, call, bind at 1. cbn [emit].
  now rewrite Hme.
Qed.

(** X9: on a client object that was never connected, a search, a scrape
    of a well-formed date and an identity lookup each raise an
    [AttributeError] before any call into the external client. *)
Theorem unconnected_client_raises self query chat_id target_date date_obj :
  client self = None ->
  strptime_ymd target_date = Some date_obj ->
  search_global query chat_id self
  = (Raised (Exception "AttributeError"
               "'NoneType' object has no attribute 'get_dialogs'"), self, [])
  /\ scrape_saved_messages target_date self
     = (Raised (Exception "AttributeError"
                  "'NoneType' object has no attribute 'get_me'"), self, [])
  /\ get_me self
     = (Raised (Exception "AttributeError"
                  "'NoneType' object has no attribute 'get_me'"), self, []).
Proof.
  intros Hc Hdate.
  unfold search_global, scrape_saved_messages, get_me. rewrite Hdate.
  unfold self_client, bind, get_state. rewrite Hc. now repeat split.
Qed.

(** ** The command surface *)

Lemma main_resolved py_int w args aid :
  resolve_api_id py_int w args = inr aid ->
  truthy_str (resolve_api_hash w args) = true ->
  main py_int w args tt
  = (let '(o, _, tr) :=
       try_finally (try_except (dispatch w args) main_except) disconnect
         (new_self aid (or_str (resolve_api_hash w args) "")) in
     (match o with Ok _ => Ok tt | Raised e => Raised e end, tt, tr)).
Proof.
  intros Hid Hhash. unfold main. rewrite Hid, Hhash.
  unfold bind, with_local, new_self.
  destruct (try_finally _ _ _) as [[[a|e] s1] t1]; cbn [ret];
    now rewrite ?app_nil_r.
Qed.

Lemma disconnect_run self :
  disconnect self
  = (disconnect_outcome self, self,
     match client self with Some _ => [EvDisconnect] | None => [] end).
Proof.
  unfold disconnect, disconnect_outcome, bind, get_state.
  destruct (client self) as [c|]; [|reflexivity].
  unfold call, bind, emit. now destruct (tc_disconnect c).
Qed.

(** The [try ... except ... finally] of [main], given how its body ends. *)
Lemma guarded_run w args self o s1 t1 :
  dispatch w args self = (o, s1, t1) ->
  try_finally (try_except (dispatch w args) main_except) disconnect self
  = (match disconnect_outcome s1 with
     | Raised e => Raised e
     | Ok _ =>
         match o with
         | Raised KeyboardInterrupt => Raised (SystemExit 0)
         | Raised (Exception _ _) => Raised (SystemExit 1)
         | _ => o
         end
     end,
     s1,
     t1 ++ match o with
           | Raised KeyboardInterrupt =>
               [EvPrint (newline ++ "[INFO] Interrupted by user")]
           | Raised (Exception cls msg) =>
               [EvPrintJson (VDict [("error", VStr msg);
                                    ("error_type", VStr cls)])]
           | _ => []
           end
        ++ match client s1 with Some _ => [EvDisconnect] | None => [] end).
Proof.
  intros Hrun. unfold try_finally, try_except. rewrite Hrun.
  destruct o as [[]|[cls msg| |code|]]; cbn [main_except];
    unfold bind, print, print_json, sys_exit, emit, raise; cbn [app];
    rewrite disconnect_run;
    destruct (disconnect_outcome s1) as [[]|e'];
    now rewrite ?app_nil_r, <- ?app_assoc.
Qed.

(** X10: when the credentials do not resolve (the API id or the API hash
    is missing or empty, or the API id from the environment is not an
    integer), the run exits with status 1 after printing its complaint:
    the external client is neither constructed nor called. *)
Theorem unresolved_credentials_exit py_int w args :
  construction py_int w args = None ->
  fst (main py_int w args tt) = (Raised (SystemExit 1), tt)
  /\ calls (snd (main py_int w args tt)) = [].
Proof.
  unfold construction, main.
  destruct (resolve_api_id py_int w args) as [[|]|aid];
    destruct (truthy_str (resolve_api_hash w args));
    try discriminate; intros _; split; reflexivity.
Qed.

(** X11: the exit of a run whose credentials resolve.  When [disconnect]
    returns, the run ends normally if the body of the [try] completed
    (also when what it printed is an error envelope), with status 0 on a
    [KeyboardInterrupt], with status 1 on an [Exception], and with the
    exception itself otherwise.  When [disconnect] raises, the run ends
    with that exception, whatever happened before. *)
Theorem main_exit_status py_int w args aid o s1 t1 :
  resolve_api_id py_int w args = inr aid ->
  truthy_str (resolve_api_hash w args) = true ->
  dispatch w args (new_self aid (or_str (resolve_api_hash w args) ""))
  = (o, s1, t1) ->
  fst (fst (main py_int w args tt))
  = match disconnect_outcome s1 with
    | Raised e => Raised e
    | Ok _ => exit_of o
    end.
Proof.
  intros Hid Hhash Hrun.
  rewrite (main_resolved py_int w args aid Hid Hhash).
  rewrite (guarded_run _ _ _ _ _ _ Hrun). cbn [fst].
  destruct (disconnect_outcome s1) as [[]|e]; [|reflexivity].
  now destruct o as [[]|[cls msg| |code|]].
Qed.

(** X12: an [Exception] that leaves the body of the [try] is reported once,
    as [{error: str(e), error_type: type(e).__name__}], after everything
    the body did and before the disconnect, which is the last event if
    the external client had been constructed. *)
Theorem main_reports_exception py_int w args aid cls msg s1 t1 :
  resolve_api_id py_int w args = inr aid ->
  truthy_str (resolve_api_hash w args) = true ->
  dispatch w args (new_self aid (or_str (resolve_api_hash w args) ""))
  = (Raised (Exception cls msg), s1, t1) ->
  snd (main py_int w args tt)
  = t1 ++ [EvPrintJson (VDict [("error", VStr msg);
                               ("error_type", VStr cls)])]
       ++ match client s1 with Some _ => [EvDisconnect] | None => [] end.
Proof.
  intros Hid Hhash Hrun.
  rewrite (main_resolved py_int w args aid Hid Hhash).
  now rewrite (guarded_run _ _ _ _ _ _ Hrun).
Qed.

Lemma connect_started w self c :
  new_TelegramClient w (session_name self) (api_id self) (api_hash self)
  = Ok c ->
  tc_start c = Ok tt ->
  exists t,
    connect w self
    = (Ok tt,
       mk_TelegramSearchClient (api_id self) (api_hash self)
                               (session_name self) (Some c), t)
    /\ calls t
       = [EvTelegramClient (session_name self) (api_id self) (api_hash self);
          EvStart].
Proof.
  intros Hnew Hstart. unfold connect.
  unfold bind at 1, get_state. unfold bind at 1, call at 1, bind at 1.
  cbn [emit]. rewrite Hnew. cbn [ret app].
  unfold bind at 1, put_state.
  destruct (path_exists w _); cbn [negb];
    unfold bind, call, print, emit; rewrite Hstart; cbn;
    eexists; split; reflexivity.
Qed.

(** X13: the date of a scrape is checked only after the connection is
    made.  With a date that the parse rejects, a run that was asked for
    nothing but the scrape constructs and starts the external client,
    prints the invalid-date envelope, disconnects and ends normally:
    the archive is never touched and the exit status is 0. *)
Theorem invalid_date_run py_int w args aid c target_date :
  resolve_api_id py_int w args = inr aid ->
  truthy_str (resolve_api_hash w args) = true ->
  new_TelegramClient w "anon" aid (or_str (resolve_api_hash w args) "")
  = Ok c ->
  tc_start c = Ok tt ->
  tc_disconnect c = Ok tt ->
  auth args = false ->
  whoami args = false ->
  truthy_str (search args) = false ->
  scrape_saved args = Some target_date ->
  target_date <> "" ->
  strptime_ymd target_date = None ->
  fst (main py_int w args tt) = (Ok tt, tt)
  /\ calls (snd (main py_int w args tt))
     = [EvTelegramClient "anon" aid (or_str (resolve_api_hash w args) "");
        EvStart; EvPrintJson invalid_date_envelope; EvDisconnect].
Proof.
  intros Hid Hhash Hnew Hstart Hdisc Hauth Hwho Hsearch Hscrape Hne Hdate.
  rewrite (main_resolved py_int w args aid Hid Hhash).
  assert (Hrun : exists t1,
    dispatch w args (new_self aid (or_str (resolve_api_hash w args) ""))
    = (Ok tt,
       mk_TelegramSearchClient aid (or_str (resolve_api_hash w args) "")
                               "anon" (Some c), t1)
    /\ calls t1
       = [EvTelegramClient "anon" aid (or_str (resolve_api_hash w args) "");
          EvStart; EvPrintJson invalid_date_envelope]).
  { destruct (connect_started w
                (new_self aid (or_str (resolve_api_hash w args) "")) c
                Hnew Hstart) as (t & Hconn & Ht).
    unfold new_self in *.
    cbn [session_name api_id api_hash] in Hconn, Ht.
    unfold dispatch. rewrite Hauth, Hwho, Hsearch, Hscrape.
    assert (Htr : truthy_str (Some target_date) = true).
    { cbn. now destruct (is_empty_spec target_date). }
    rewrite Htr. cbn [or_str].
    destruct (is_empty_spec target_date) as [|_]; [contradiction|].
    unfold bind at 1. rewrite Hconn.
    unfold scrape_saved_messages. rewrite Hdate.
    unfold bind, ret, print_json, emit. cbn [app].
    eexists. split; [reflexivity|].
    unfold calls in *. rewrite filter_app, Ht. reflexivity. }
  destruct Hrun as (t1 & Hrun & Hcalls).
  rewrite (guarded_run _ _ _ _ _ _ Hrun).
  unfold disconnect_outcome. cbn [client]. rewrite Hdisc. cbn [fst snd].
  split; [reflexivity|].
  unfold calls in *. rewrite !filter_app, Hcalls. reflexivity.
Qed.

(** X14: whether the session file exists changes only the lines that
    [connect] prints: the construction and the start of the external
    client, the result of [connect] and the state it leaves are the same
    either way. *)
Theorem session_file_only_changes_notices w present self :
  fst (connect (with_session_file w present) self) = fst (connect w self)
  /\ calls (snd (connect (with_session_file w present) self))
     = calls (snd (connect w self)).
Proof.
  destruct w as [env exists_ construct].
  cbv [connect with_session_file bind get_state call put_state print emit
       ret raise new_TelegramClient path_exists getenv].
  destruct (construct (session_name self) (api_id self) (api_hash self))
    as [c|e]; [|split; reflexivity].
  destruct present, (exists_ _), (tc_start c) as [[]|e];
    split; reflexivity.
Qed.

(** X15: with [--auth] or [--whoami] the run looks up the identity and
    does nothing else: whatever the other flags say and however the run
    ends, no dialogs are listed and no messages are iterated. *)
Theorem identity_flags_never_scan py_int w args :
  auth args = true \/ whoami args = true ->
  Forall (fun ev => is_scan ev = false) (snd (main py_int w args tt)).
Proof.
  intros Hflag. unfold main.
  destruct (resolve_api_id py_int w args) as [[|]|aid];
    destruct (truthy_str (resolve_api_hash w args));
    try (repeat constructor).
  assert (Hbody : dispatch w args
    = (connect w ;;
       if auth args
       then me <- get_me ;;
            self <- get_state ;;
            print_json (VDict [("status", VStr "authenticated");
                               ("user", me);
                               ("session_file",
                                VStr (session_name self ++ ".session"))])
       else me <- get_me ;; print_json me)).
  { unfold dispatch. destruct (auth args); [reflexivity|].
    destruct Hflag as [|Hw]; [discriminate|]. now rewrite Hw. }
  rewrite Hbody. clear Hbody Hflag.
  generalize (or_str (resolve_api_hash w args) ""). intros hash.
  destruct w as [env exists_ construct].
  cbv [connect get_me self_client disconnect try_finally try_except
       with_local bind get_state call put_state print print_json sys_exit
       emit ret raise new_TelegramClient path_exists getenv
       session_name api_id api_hash client main_except].
  destruct (construct "anon" aid hash) as [c|[cls msg| |code|]];
    [|cbn; repeat constructor..].
  destruct (exists_ _); cbn [negb];
    destruct (tc_start c) as [[]|[cls0 msg0| |code0|]];
    try (destruct (tc_disconnect c); cbn; repeat constructor);
    destruct (auth args);
    destruct (tc_get_me c) as [me|[cls1 msg1| |code1|]];
    destruct (tc_disconnect c); cbn; repeat constructor.
Qed.

(** X16: an option given as the empty string, or as the number 0, counts
    as not given at all: the run is the run of the command line without
    it.  So [--search ""] falls through to the scrape or to the usage
    text, [--chat-id 0] searches every conversation, and [--api-id 0] or
    [--api-hash ""] fall back on the environment. *)
Theorem falsy_options_are_absent py_int w args :
  main py_int w args = main py_int w (given args).
Proof.
  assert (Hs : forall o, truthy_str (given_str o) = truthy_str o).
  { intros [s|]; [|reflexivity]. unfold given_str.
    now destruct (truthy_str (Some s)) eqn:E. }
  assert (Hos : forall o, or_str (given_str o) "" = or_str o "").
  { intros [s|]; [|reflexivity]. unfold given_str, truthy_str, or_str.
    destruct (is_empty s) eqn:E; cbn; now rewrite ?E. }
  assert (Hid : resolve_api_id py_int w (given args)
                = resolve_api_id py_int w args).
  { unfold resolve_api_id, given, given_int. cbn [arg_api_id].
    destruct (arg_api_id args) as [z|]; [|reflexivity].
    unfold truthy_int. destruct (z =? 0) eqn:E; cbn [negb]; cbv iota;
      rewrite ?E; reflexivity. }
  assert (Hhash : resolve_api_hash w (given args) = resolve_api_hash w args).
  { unfold resolve_api_hash, given. cbn [arg_api_hash]. rewrite Hs.
    unfold given_str. now destruct (truthy_str (arg_api_hash args)). }
  assert (Hd : dispatch w (given args) = dispatch w args).
  { unfold dispatch, given. cbn [auth whoami search scrape_saved chat_id].
    rewrite !Hs, !Hos.
    assert (Hc : forall q, search_global q (given_int (chat_id args))
                           = search_global q (chat_id args)).
    { intros q. unfold given_int, truthy_int.
      destruct (chat_id args) as [z|]; [|reflexivity].
      now destruct (Z.eqb_spec z 0) as [->|]. }
    now rewrite Hc. }
  unfold main. now rewrite Hid, Hhash, Hd.
Qed.

(** X17: when the external client honours the limit of 100 messages that
    each per-conversation search asks for, the total of a search is at
    most 100 times the number of conversations it scans. *)
Theorem search_total_bounded self c query chat_id all :
  client self = Some c ->
  tc_get_dialogs c = Ok all ->
  scanned chat_id all <> [] \/ truthy_int chat_id = false ->
  (forall d, In d (scanned chat_id all) -> tolerated c query d = true) ->
  (forall d, In d (scanned chat_id all) ->
     (length (delivered (dialog_stream c query d)) <= 100)%nat) ->
  exists envelope tr total,
    search_global query chat_id self = (Ok envelope, self, tr)
    /\ field "total" envelope = Some (VInt (Z.of_nat total))
    /\ (total <= 100 * length (scanned chat_id all))%nat.
Proof.
  intros Hc Hall Hne Htol Hlim.
  rewrite (search_global_scan self c query chat_id all Hc Hall Hne Htol).
  eexists _, _, _. split; [reflexivity|]. split; [reflexivity|].
  clear Hne Htol.
  induction (scanned chat_id all) as [|d ds IH]; [apply le_n|].
  cbn [flat_map length]. rewrite length_app.
  assert (H1 : (length (dialog_hits c query d) <= 100)%nat).
  { etransitivity; [apply search_hits_length|].
    apply Hlim. now left. }
  assert (H2 := IH (fun x Hx => Hlim x (or_intror Hx))).
  lia.
Qed.

End Unicode.

(** * The properties on the scripted client

    The runs, the instances and the counterexamples below take the table
    of decimal digits of version 14.0 of the Unicode database. *)

Lemma ucd_decimal_ascii c :
  in_range "0" "9" c = true -> ucd_decimal c = Some (digit_val c).
Proof.
  intros H. apply in_range_N in H. chr_eval.
  unfold ucd_decimal, ucd_zeros, digit_val. cbn [find].
  replace ((48 <=? c) && (c <? 48 + 10))%N with true
    by (symmetry; rewrite andb_true_iff, N.leb_le, N.ltb_lt; lia).
  f_equal. lia.
Qed.

Example strptime_examples :
  strptime_ymd ucd_decimal "2024-01-15" = Some demo_date
  /\ strptime_ymd ucd_decimal "2024-02-29"
     = Some (mk_datetime 2024 2 29 0 0 0 0 None)
  /\ strptime_ymd ucd_decimal "2024-1-5"
     = Some (mk_datetime 2024 1 5 0 0 0 0 None)
  /\ strptime_ymd ucd_decimal "2023-02-29" = None
  /\ strptime_ymd ucd_decimal "2024-13-40" = None
  /\ strptime_ymd ucd_decimal "not-a-date" = None
  /\ strptime_ymd ucd_decimal "2024-01-15 " = None
  /\ strptime_ymd ucd_decimal "0000-01-15" = None.
Proof. repeat split. Qed.

(** Digits of other scripts: the year may be written in full-width
    digits, and so may the second digit of the day 15; a month may not. *)
Example strptime_unicode_examples :
  strptime_ymd ucd_decimal demo_fullwidth_year = Some demo_date
  /\ strptime_ymd ucd_decimal demo_fullwidth_day = Some demo_date
  /\ strptime_ymd ucd_decimal ("2024-" ++ [65296%N] ++ "1-15") = None
  /\ strptime_ymd ucd_decimal ("2024-01-" ++ [65299%N] ++ "0") = None.
Proof. repeat split. Qed.

(** A scrape asked for with the year in full-width digits runs, and
    returns the two messages of the day under the date as it was
    written. *)
Example scrape_fullwidth_run :
  scrape_saved_messages ucd_decimal demo_fullwidth_year (demo_self demo_saved)
  = (Ok (scrape_envelope demo_fullwidth_year
           [scrape_record demo_day_end (utc 2024 1 15 23 59 59 999999);
            scrape_record demo_day_start (utc 2024 1 15 0 0 0 0)]),
     demo_self demo_saved,
     [EvGetMe; EvIterMessages (PeerId 777) None None;
      EvNext (Some demo_next_day); EvNext (Some demo_day_end);
      EvNext (Some demo_day_start); EvNext (Some demo_before)]).
Proof. reflexivity. Qed.

Example isoformat_examples :
  isoformat (utc 2024 1 15 9 5 0 0) = "2024-01-15T09:05:00+00:00"
  /\ isoformat (mk_datetime 2024 1 15 23 59 59 999999 None)
     = "2024-01-15T23:59:59.999999".
Proof. split; reflexivity. Qed.

(** The scrape of 15 January: the message of the 16th is passed over, the
    two of the 15th are kept, the first of the 14th ends the loop. *)
Example scrape_day_run :
  scrape_saved_messages ucd_decimal "2024-01-15" (demo_self demo_saved)
  = (Ok (VDict
           [("date", VStr "2024-01-15");
            ("results",
             VList
               [VDict [("message_id", VInt 40); ("text", VStr "late");
                       ("date", VStr "2024-01-15T23:59:59.999999+00:00");
                       ("is_read", VBool true); ("media_type", VNone)];
                VDict [("message_id", VInt 30); ("text", VStr "early");
                       ("date", VStr "2024-01-15T00:00:00+00:00");
                       ("is_read", VBool true); ("media_type", VNone)]]);
            ("total", VInt 2)]),
     demo_self demo_saved,
     [EvGetMe; EvIterMessages (PeerId 777) None None;
      EvNext (Some demo_next_day); EvNext (Some demo_day_end);
      EvNext (Some demo_day_start); EvNext (Some demo_before)]).
Proof. reflexivity. Qed.

(** A search from the command line: connect, list, search each dialog,
    print, disconnect. *)
Example main_search_run :
  main ucd_decimal (fun _ => None) demo_world demo_args tt
  = (Ok tt, tt,
     [EvTelegramClient "anon" 12345 "0123456789abcdef";
      EvPrint "[INFO] Using existing session..."; EvStart]
     ++ demo_search_trace
     ++ [EvPrintJson
           (search_envelope "hello"
              [demo_hit demo_alice 1 "hello from Alice" 10;
               demo_hit demo_bob 2 "hello from Bob" 11;
               demo_hit demo_carol 3 "hello from Carol" 12]);
         EvDisconnect]).
Proof. reflexivity. Qed.

(** The user interrupts the listing: a notice, exit status 0, and the
    disconnect. *)
Example main_interrupted_run :
  main ucd_decimal (fun _ => None) demo_interrupted_world demo_args tt
  = (Raised (SystemExit 0), tt,
     [EvTelegramClient "anon" 12345 "0123456789abcdef";
      EvPrint "[INFO] Using existing session..."; EvStart; EvGetDialogs;
      EvPrint (newline ++ "[INFO] Interrupted by user"); EvDisconnect]).
Proof. reflexivity. Qed.

(** No credentials: two lines, exit status 1, nothing else. *)
Example main_bare_run :
  main ucd_decimal (fun _ => None) demo_world demo_args_bare tt
  = (Raised (SystemExit 1), tt,
     [EvPrint "ERROR: TELEGRAM_API_ID and TELEGRAM_API_HASH must be set";
      EvPrint
        "Set them as environment variables or pass --api-id and --api-hash"]).
Proof. reflexivity. Qed.

Lemma C1_witness :
  scrape_saved_messages ucd_decimal "2024-01-15" (demo_self demo_saved)
  = (Ok (scrape_envelope "2024-01-15"
           (scrape_hits (start_of_day demo_date) (end_of_day demo_date)
              [Some demo_next_day; Some demo_day_end; Some demo_day_start])),
     demo_self demo_saved,
     EvGetMe :: EvIterMessages (PeerId (u_id demo_me)) None None
       :: map EvNext ([Some demo_next_day; Some demo_day_end;
                       Some demo_day_start] ++ [Some demo_before]))
  /\ scrape_hit (start_of_day demo_date) (end_of_day demo_date)
       (Some demo_before) = []
  /\ (forall x dx,
        date x = Some dx ->
        dt_ltb (end_of_day demo_date) (replace_tzinfo dx None) = true ->
        scrape_hit (start_of_day demo_date) (end_of_day demo_date) (Some x) = []
        /\ below (start_of_day demo_date) (Some x) = false).
Proof.
  apply (C1_scrape_stops_below_window ucd_decimal
           (demo_self demo_saved) (demo_client demo_saved) demo_me
           "2024-01-15" demo_date
           [Some demo_next_day; Some demo_day_end; Some demo_day_start]
           demo_before (utc 2024 1 14 23 59 59 999999)
           (SYield (Some demo_before') SEnd));
    try reflexivity.
  intros x [<-|[<-|[<-|[]]]]; reflexivity.
Defined.


Lemma C3_witness :
  scrape_saved_messages ucd_decimal "2024-01-15" (demo_self demo_saved_broken)
  = (Ok (scrape_failed_envelope "connection lost"),
     demo_self demo_saved_broken,
     EvGetMe :: EvIterMessages (PeerId (u_id demo_me)) None None
       :: map EvNext [Some demo_next_day; Some demo_day_end;
                      Some demo_day_start])
  /\ field "error" (scrape_failed_envelope "connection lost")
     = Some (VStr ("Failed to scrape Saved Messages: " ++ "connection lost"))
  /\ field "results" (scrape_failed_envelope "connection lost")
     = Some (VList [])
  /\ field "total" (scrape_failed_envelope "connection lost") = None.
Proof.
  apply (C3_scrape_exception_discards ucd_decimal
           (demo_self demo_saved_broken) (demo_client demo_saved_broken)
           demo_me "2024-01-15" demo_date
           [Some demo_next_day; Some demo_day_end; Some demo_day_start]
           "ConnectionError" "connection lost");
    try reflexivity.
  intros x [<-|[<-|[<-|[]]]]; reflexivity.
Defined.

Lemma C8_witness :
  (scrape_saved_messages ucd_decimal "2024-13-40" (demo_self demo_saved)
   = (Ok invalid_date_envelope, demo_self demo_saved, [])
   /\ invalid_date_envelope
      = VDict [("error", VStr "Invalid date format. Use YYYY-MM-DD");
               ("results", VList [])]
   /\ spec_strict_YYYY_MM_DD "2024-13-40" = false)
  /\ (scrape_saved_messages ucd_decimal "not-a-date" (demo_self demo_saved)
      = (Ok invalid_date_envelope, demo_self demo_saved, [])
      /\ invalid_date_envelope
         = VDict [("error", VStr "Invalid date format. Use YYYY-MM-DD");
                  ("results", VList [])]
      /\ spec_strict_YYYY_MM_DD "not-a-date" = false).
Proof.
  split.
  - apply (C8_rejected_date_envelope ucd_decimal ucd_decimal_ascii
             (demo_self demo_saved) "2024-13-40").
    reflexivity.
  - apply (C8_rejected_date_envelope ucd_decimal ucd_decimal_ascii
             (demo_self demo_saved) "not-a-date").
    reflexivity.
Defined.

(** C8, as the specification words it, fails: ["2024-1-15"] is not
    written as YYYY-MM-DD (its month has one digit), yet [strptime]
    accepts it and the scrape runs and returns the day's two records. *)
Lemma C8_counterexample :
  spec_strict_YYYY_MM_DD "2024-1-15" = false
  /\ strptime_ymd ucd_decimal "2024-1-15" = Some demo_date
  /\ scrape_saved_messages ucd_decimal "2024-1-15" (demo_self demo_saved)
     = (Ok (scrape_envelope "2024-1-15"
              [scrape_record demo_day_end (utc 2024 1 15 23 59 59 999999);
               scrape_record demo_day_start (utc 2024 1 15 0 0 0 0)]),
        demo_self demo_saved,
        [EvGetMe; EvIterMessages (PeerId 777) None None;
         EvNext (Some demo_next_day); EvNext (Some demo_day_end);
         EvNext (Some demo_day_start); EvNext (Some demo_before)]).
Proof. repeat split. Qed.

Lemma C4_witness :
  search_global "hello" None (demo_self SEnd)
  = (Ok (search_envelope "hello"
           (flat_map (dialog_hits (demo_client SEnd) "hello")
              (scanned None demo_dialogs))),
     demo_self SEnd,
     EvGetDialogs
       :: flat_map (dialog_trace (demo_client SEnd) "hello")
            (scanned None demo_dialogs))
  /\ flat_map (dialog_hits (demo_client SEnd) "hello")
       (scanned None demo_dialogs)
     = [demo_hit demo_alice 1 "hello from Alice" 10;
        demo_hit demo_bob 2 "hello from Bob" 11;
        demo_hit demo_carol 3 "hello from Carol" 12].
Proof.
  split; [|reflexivity].
  apply (C4_search_skips_failures (demo_self SEnd) (demo_client SEnd)
           "hello" None demo_dialogs eq_refl eq_refl (or_intror eq_refl)).
  intros d [<-|[<-|[<-|[]]]]; reflexivity.
Defined.

(** C4, as the specification words it, fails: Bob's search delivers a
    message and then raises, and the record of that message is in the
    results, which count three, while the conversations that did not fail
    account for two. *)
Lemma C4_counterexample :
  fails (demo_client SEnd) "hello" demo_bob = true
  /\ search_global "hello" None (demo_self SEnd)
     = (Ok (VDict [("query", VStr "hello");
                   ("results",
                    VList [demo_hit demo_alice 1 "hello from Alice" 10;
                           demo_hit demo_bob 2 "hello from Bob" 11;
                           demo_hit demo_carol 3 "hello from Carol" 12]);
                   ("total", VInt 3)]),
        demo_self SEnd, demo_search_trace)
  /\ flat_map (dialog_hits (demo_client SEnd) "hello")
       (filter (fun d => negb (fails (demo_client SEnd) "hello" d))
               demo_dialogs)
     = [demo_hit demo_alice 1 "hello from Alice" 10;
        demo_hit demo_carol 3 "hello from Carol" 12].
Proof. repeat split. Qed.

Lemma C5_witness :
  search_global "hello" (Some 999) (demo_self SEnd)
  = (Ok (not_found_envelope 999), demo_self SEnd, [EvGetDialogs])
  /\ not_found_envelope 999
     = VDict [("error", VStr ("Chat ID " ++ str_of_Z 999 ++ " not found"));
              ("results", VList [])].
Proof.
  apply (C5_unknown_chat_id (demo_self SEnd) (demo_client SEnd) "hello" 999
           demo_dialogs eq_refl eq_refl).
  - discriminate.
  - intros d [<-|[<-|[<-|[]]]]; discriminate.
Defined.

(** C5, as the specification words it, fails at the target id 0: no
    listed conversation has id 0, yet the call searches all three
    conversations and returns a success envelope. *)
Lemma C5_counterexample :
  forallb (fun d => negb (d_id d =? 0)) demo_dialogs = true
  /\ search_global "hello" (Some 0) (demo_self SEnd)
     = (Ok (VDict [("query", VStr "hello");
                   ("results",
                    VList [demo_hit demo_alice 1 "hello from Alice" 10;
                           demo_hit demo_bob 2 "hello from Bob" 11;
                           demo_hit demo_carol 3 "hello from Carol" 12]);
                   ("total", VInt 3)]),
        demo_self SEnd, demo_search_trace)
  /\ field "error" (not_found_envelope 0)
     = Some (VStr "Chat ID 0 not found").
Proof. repeat split. Qed.


Lemma C6_witness :
  (exists results,
     field "results"
       (scrape_envelope "2024-01-15"
          [scrape_record demo_day_end (utc 2024 1 15 23 59 59 999999);
           scrape_record demo_day_start (utc 2024 1 15 0 0 0 0)])
     = Some (VList results)
     /\ field "total"
          (scrape_envelope "2024-01-15"
             [scrape_record demo_day_end (utc 2024 1 15 23 59 59 999999);
              scrape_record demo_day_start (utc 2024 1 15 0 0 0 0)])
        = Some (VInt (Z.of_nat (length results)))
     /\ (length results
         <= length (delivered_of
                      (EvGetMe :: EvIterMessages (PeerId 777) None None
                         :: map EvNext [Some demo_next_day; Some demo_day_end;
                                        Some demo_day_start;
                                        Some demo_before])))%nat)
  /\ demo_self demo_saved = demo_self demo_saved
  /\ (forall j, invoke ucd_decimal j (demo_self demo_saved)
                = invoke ucd_decimal j (demo_self demo_saved)).
Proof.
  exact (C6_total_is_length ucd_decimal (Scrape "2024-01-15") (demo_self demo_saved)
           (scrape_envelope "2024-01-15"
              [scrape_record demo_day_end (utc 2024 1 15 23 59 59 999999);
               scrape_record demo_day_start (utc 2024 1 15 0 0 0 0)])
           (demo_self demo_saved)
           (EvGetMe :: EvIterMessages (PeerId 777) None None
              :: map EvNext [Some demo_next_day; Some demo_day_end;
                             Some demo_day_start; Some demo_before])
           eq_refl eq_refl).
Defined.

(** C9, as the specification words it, fails: with the session database
    locked the construction of the external client raises; the run
    reports the exception and exits with status 1, and [disconnect] finds
    [self.client] unset and calls nothing. *)
Lemma C9_counterexample :
  main ucd_decimal (fun _ => None) demo_locked_world demo_args tt
  = (Raised (SystemExit 1), tt,
     [EvTelegramClient "anon" 12345 "0123456789abcdef";
      EvPrintJson (VDict [("error", VStr "database is locked");
                          ("error_type", VStr "OperationalError")])])
  /\ disconnects (snd (main ucd_decimal (fun _ => None) demo_locked_world demo_args tt))
     = 0%nat.
Proof. split; reflexivity. Qed.


Lemma window_is_the_day_witness :
  (in_window (start_of_day demo_date) (end_of_day demo_date)
             (replace_tzinfo (utc 2024 1 15 23 59 59 999999) None) = true
   <-> same_day (utc 2024 1 15 23 59 59 999999) demo_date)
  /\ (same_day (utc 2024 1 15 23 59 59 999999) demo_date ->
      scrape_hit (start_of_day demo_date) (end_of_day demo_date)
                 (Some demo_day_end)
      = [scrape_record demo_day_end (utc 2024 1 15 23 59 59 999999)])
  /\ (~ same_day (utc 2024 1 15 23 59 59 999999) demo_date ->
      scrape_hit (start_of_day demo_date) (end_of_day demo_date)
                 (Some demo_day_end)
      = []).
Proof.
  apply (window_is_the_day demo_date demo_day_end
           (utc 2024 1 15 23 59 59 999999)).
  - unfold valid_time. cbn. lia.
  - reflexivity.
Defined.

Lemma search_records_well_formed_witness :
  exists results,
    field "results"
      (search_envelope "hello"
         [demo_hit demo_alice 1 "hello from Alice" 10;
          demo_hit demo_bob 2 "hello from Bob" 11;
          demo_hit demo_carol 3 "hello from Carol" 12])
    = Some (VList results)
    /\ Forall (fun r =>
                 exists t ttl,
                   field "text" r = Some (VStr t)
                   /\ t <> "" /\ (length t <= 500)%nat
                   /\ field "chat_title" r = Some (VStr ttl)
                   /\ ttl <> "") results.
Proof.
  exact (search_records_well_formed "hello" None (demo_self SEnd) _
           (demo_self SEnd) demo_search_trace eq_refl eq_refl).
Defined.

Lemma targeted_search_stays_in_chat_witness :
  exists results,
    field "results"
      (search_envelope "hello" [demo_hit demo_bob 2 "hello from Bob" 11])
    = Some (VList results)
    /\ Forall (fun r => field "chat_id" r = Some (VInt 102)) results.
Proof.
  refine (targeted_search_stays_in_chat "hello" 102 (demo_self SEnd) _
            (demo_self SEnd)
            [EvGetDialogs;
             EvIterMessages (Entity 2) (Some (u "hello")) (Some 100);
             EvNext (Some (demo_msg 2 "hello from Bob"
                             (utc 2024 1 15 11 0 0 0)))]
            _ eq_refl eq_refl).
  discriminate.
Defined.

Lemma search_interrupt_propagates_witness :
  search_global "hello" None
    (mk_TelegramSearchClient 12345 "0123456789abcdef" "anon"
                             (Some demo_client_interrupted))
  = (Raised KeyboardInterrupt,
     mk_TelegramSearchClient 12345 "0123456789abcdef" "anon"
                             (Some demo_client_interrupted),
     EvGetDialogs
       :: flat_map (dialog_trace demo_client_interrupted "hello")
            ([demo_alice] ++ [demo_bob])).
Proof.
  apply (search_interrupt_propagates _ demo_client_interrupted "hello" None
           demo_dialogs [demo_alice] demo_bob [demo_carol] KeyboardInterrupt);
    try reflexivity.
  intros x [<-|[]]. reflexivity.
Defined.

Lemma scrape_interrupt_propagates_witness :
  scrape_saved_messages ucd_decimal "2024-01-15"
    (demo_self (yields [Some demo_next_day; Some demo_day_end]
                       (SRaise CancelledError)))
  = (Raised CancelledError,
     demo_self (yields [Some demo_next_day; Some demo_day_end]
                       (SRaise CancelledError)),
     EvGetMe :: EvIterMessages (PeerId (u_id demo_me)) None None
       :: map EvNext [Some demo_next_day; Some demo_day_end]).
Proof.
  apply (scrape_interrupt_propagates ucd_decimal _
           (demo_client (yields [Some demo_next_day; Some demo_day_end]
                                (SRaise CancelledError)))
           demo_me "2024-01-15" demo_date
           [Some demo_next_day; Some demo_day_end] CancelledError);
    try reflexivity.
  intros x [<-|[<-|[]]]; reflexivity.
Defined.

Lemma scrape_identity_failure_propagates_witness :
  scrape_saved_messages ucd_decimal "2024-01-15"
    (mk_TelegramSearchClient 12345 "0123456789abcdef" "anon"
                             (Some demo_client_anonymous))
  = (Raised (Exception "RPCError" "AUTH_KEY_UNREGISTERED"),
     mk_TelegramSearchClient 12345 "0123456789abcdef" "anon"
                             (Some demo_client_anonymous),
     [EvGetMe]).
Proof.
  apply (scrape_identity_failure_propagates ucd_decimal _ demo_client_anonymous
           "2024-01-15" demo_date); reflexivity.
Defined.

Lemma unconnected_client_raises_witness :
  search_global "hello" None (new_self 12345 "0123456789abcdef")
  = (Raised (Exception "AttributeError"
               "'NoneType' object has no attribute 'get_dialogs'"),
     new_self 12345 "0123456789abcdef", [])
  /\ scrape_saved_messages ucd_decimal "2024-01-15" (new_self 12345 "0123456789abcdef")
     = (Raised (Exception "AttributeError"
                  "'NoneType' object has no attribute 'get_me'"),
        new_self 12345 "0123456789abcdef", [])
  /\ get_me (new_self 12345 "0123456789abcdef")
     = (Raised (Exception "AttributeError"
                  "'NoneType' object has no attribute 'get_me'"),
        new_self 12345 "0123456789abcdef", []).
Proof.
  apply (unconnected_client_raises ucd_decimal (new_self 12345 "0123456789abcdef")
           "hello" None "2024-01-15" demo_date); reflexivity.
Defined.

Lemma unresolved_credentials_exit_witness :
  (fst (main ucd_decimal (fun _ => None) demo_world demo_args_bare tt)
   = (Raised (SystemExit 1), tt)
   /\ calls (snd (main ucd_decimal (fun _ => None) demo_world demo_args_bare tt)) = [])
  /\ (fst (main ucd_decimal (fun _ => None) demo_world_bad_id demo_args_bare tt)
      = (Raised (SystemExit 1), tt)
      /\ calls (snd (main ucd_decimal (fun _ => None) demo_world_bad_id demo_args_bare tt))
         = []).
Proof.
  split.
  - apply (unresolved_credentials_exit ucd_decimal (fun _ => None) demo_world
             demo_args_bare). reflexivity.
  - apply (unresolved_credentials_exit ucd_decimal (fun _ => None) demo_world_bad_id
             demo_args_bare). reflexivity.
Defined.

Lemma main_exit_status_witness :
  fst (fst (main ucd_decimal (fun _ => None) demo_interrupted_world demo_args tt))
  = match disconnect_outcome
            (mk_TelegramSearchClient 12345 "0123456789abcdef" "anon"
               (Some (mk_TelegramClient (Ok tt) (Ok tt)
                        (Raised KeyboardInterrupt) (Ok demo_me)
                        (demo_iter demo_saved)))) with
    | Raised e => Raised e
    | Ok _ => exit_of (Raised KeyboardInterrupt)
    end.
Proof.
  apply (main_exit_status ucd_decimal (fun _ => None) demo_interrupted_world demo_args
           12345 (Raised KeyboardInterrupt) _
           [EvTelegramClient "anon" 12345 "0123456789abcdef";
            EvPrint "[INFO] Using existing session..."; EvStart;
            EvGetDialogs]);
    reflexivity.
Defined.

Lemma main_reports_exception_witness :
  snd (main ucd_decimal (fun _ => None) demo_world_refused demo_args tt)
  = [EvTelegramClient "anon" 12345 "0123456789abcdef";
     EvPrint "[INFO] No existing session found. Starting authentication...";
     EvStart]
    ++ [EvPrintJson (VDict [("error", VStr "The phone number is invalid");
                            ("error_type", VStr "PhoneNumberInvalidError")])]
    ++ match client (mk_TelegramSearchClient 12345 "0123456789abcdef" "anon"
                       (Some demo_client_refused)) with
       | Some _ => [EvDisconnect]
       | None => []
       end.
Proof.
  apply (main_reports_exception ucd_decimal (fun _ => None) demo_world_refused demo_args
           12345 "PhoneNumberInvalidError" "The phone number is invalid");
    reflexivity.
Defined.

Lemma invalid_date_run_witness :
  fst (main ucd_decimal (fun _ => None) demo_world (demo_args_scrape "2024-13-40") tt)
  = (Ok tt, tt)
  /\ calls (snd (main ucd_decimal (fun _ => None) demo_world
                      (demo_args_scrape "2024-13-40") tt))
     = [EvTelegramClient "anon" 12345
          (or_str (resolve_api_hash demo_world
                     (demo_args_scrape "2024-13-40")) "");
        EvStart; EvPrintJson invalid_date_envelope; EvDisconnect].
Proof.
  apply (invalid_date_run ucd_decimal (fun _ => None) demo_world
           (demo_args_scrape "2024-13-40") 12345 (demo_client demo_saved)
           "2024-13-40");
    try reflexivity.
  discriminate.
Defined.

Lemma identity_flags_never_scan_witness :
  Forall (fun ev => is_scan ev = false)
         (snd (main ucd_decimal (fun _ => None) demo_world demo_args_auth tt)).
Proof.
  apply (identity_flags_never_scan ucd_decimal (fun _ => None) demo_world demo_args_auth).
  left. reflexivity.
Defined.

Lemma search_total_bounded_witness :
  exists envelope tr total,
    search_global "hello" None (demo_self SEnd)
    = (Ok envelope, demo_self SEnd, tr)
    /\ field "total" envelope = Some (VInt (Z.of_nat total))
    /\ (total <= 100 * length (scanned None demo_dialogs))%nat.
Proof.
  apply (search_total_bounded (demo_self SEnd) (demo_client SEnd) "hello"
           None demo_dialogs eq_refl eq_refl (or_intror eq_refl)).
  - intros d [<-|[<-|[<-|[]]]]; reflexivity.
  - intros d [<-|[<-|[<-|[]]]]; cbn; lia.
Defined.
